(** * PayTrack payroll: wage calculation, payment recording, attendance
    upsert and payment reports.

    Shallow embedding of
    - [src/lib/database.types.ts] and the SQL migration (row types and the
      constraints of the four tables),
    - [src/components/WagesModule.tsx] ([calculateWages], [markAsPaid],
      [fetchCalculations]),
    - [src/components/AttendanceModule.tsx] ([handleSubmit]),
    - [src/components/ReportModule.tsx] ([fetchPayments],
      [fetchEmployeeSummaries], [getTotalAmount]).

    Conventions of the embedding.
    - A [decimal(p, 2)] column holds an exact rational ([Qc]); a number
      written to it is rounded to two decimals and refused when it does not
      fit ([Store.round2], [Store.fits]).  A [number] that is only ever
      incremented from 0 is a [Z].
    - A TypeScript [number] is a double.  A number that a component only
      passes on (a value of a form, an amount read from one row and written
      to another) is represented by the decimal it is written as.  The
      arithmetic of the components is embedded twice: on exact decimals in
      [WagesModule] and [ReportModule], for the statements that do not
      depend on rounding (which records are counted, which rows are
      written, amounts that are zero or copied), and on IEEE 754 doubles
      in [Double], for the statements about the amounts computed.
    - Dates and timestamps are the ISO strings the code handles; the store
      compares them the way the code does ([>] on strings), code point by
      code point.
    - The store is a record of four tables, each a list of rows in insertion
      order.  A request to the store either fails (a fault injected by the
      environment, or a declared constraint that rejects the write) or
      returns the new store.
    - A handler of a component takes its environment (clock readings, the
      identifier the store generates, the user's answer to [confirm], the
      faults), the store and the component's state, and returns the new
      store, the new state and the message passed to [alert], if any. *)

From Stdlib Require Import QArith Qcanon Ascii SpecFloat.
From stdpp Require Import base numbers list sorting strings gmap.

(** ** Row types ([database.types.ts]) *)

Inductive AttendanceStatus := present | absent | half_day.
Inductive PeriodType := daily | weekly | monthly.
Inductive PaymentMethod := cash | bank | cheque.

Global Instance AttendanceStatus_eq_dec : EqDecision AttendanceStatus.
Proof. solve_decision. Defined.
Global Instance PeriodType_eq_dec : EqDecision PeriodType.
Proof. solve_decision. Defined.
Global Instance PaymentMethod_eq_dec : EqDecision PaymentMethod.
Proof. solve_decision. Defined.

Module Employee.
Record t := mk {
  id : string;
  name : string;
  email : string;
  phone : option string;
  position : option string;
  daily_wage : Qc;
  overtime_rate : Qc;
  half_day_rate : Qc;
  is_active : bool;
  created_at : string;
  updated_at : string;
}.
End Employee.

Module Attendance.
Record t := mk {
  id : string;
  employee_id : string;
  date : string;
  status : AttendanceStatus;
  overtime_hours : Qc;
  advance_taken : Qc;
  notes : option string;
  created_at : string;
  updated_at : string;
}.
End Attendance.

(** [Database['public']['Tables']['attendance']['Insert']]: the optional
    fields are [None] when absent ([undefined]). *)
Module AttendanceInsert.
Record t := mk {
  employee_id : string;
  date : string;
  status : AttendanceStatus;
  overtime_hours : option Qc;
  advance_taken : option Qc;
  notes : option string;
}.
End AttendanceInsert.

Module WageCalculation.
Record t := mk {
  id : string;
  employee_id : string;
  period_start : string;
  period_end : string;
  period_type : PeriodType;
  present_days : Z;
  half_days : Z;
  absent_days : Z;
  total_overtime_hours : Qc;
  base_wage : Qc;
  overtime_amount : Qc;
  half_day_amount : Qc;
  total_advances : Qc;
  gross_amount : Qc;
  net_amount : Qc;
  is_paid : bool;
  created_at : string;
  updated_at : string;
}.
End WageCalculation.

Module Payment.
Record t := mk {
  id : string;
  wage_calculation_id : string;
  employee_id : string;
  amount : Qc;
  payment_date : string;
  payment_method : option PaymentMethod;
  notes : option string;
  created_at : string;
}.
End Payment.

(** ** Strings, dates and numbers as JavaScript sees them *)

(** [!s] on a string: the empty string is falsy. *)
Definition falsy (s : string) : bool := bool_decide (s = "").

(** [a > b] on strings. *)
Definition str_gt (a b : string) : bool := String.ltb b a.

(** [gte] / [lte] of a range query on a date column. *)
Definition date_gte (d lo : string) : bool := String.leb lo d.
Definition date_lte (d hi : string) : bool := String.leb d hi.

(** [iso.split('T')[0]]: the part of the string before the first [T]. *)
Fixpoint split_T_0 (iso : string) : string :=
  match iso with
  | EmptyString => EmptyString
  | String c rest =>
      if bool_decide (c = "T"%char) then EmptyString
      else String c (split_T_0 rest)
  end.

(** [x || 0] on an optional number. *)
Definition or_zero (x : option Qc) : Qc :=
  match x with
  | Some v => if bool_decide (v = 0%Qc) then 0%Qc else v
  | None => 0%Qc
  end.

(** [s || ''] on an optional string. *)
Definition or_empty (s : option string) : string :=
  match s with Some v => v | None => "" end.

Definition PeriodType_to_string (p : PeriodType) : string :=
  match p with daily => "daily" | weekly => "weekly" | monthly => "monthly" end.

(** The sum of a list of decimals. *)
Definition sum_Qc (l : list Qc) : Qc := foldr Qcplus 0%Qc l.

(** ** The store (the SQL migration) *)

Module Database.
Record t := mk {
  employees : list Employee.t;
  attendance : list Attendance.t;
  wage_calculations : list WageCalculation.t;
  payments : list Payment.t;
}.
End Database.

Module Store.

Definition has_employee (db : Database.t) (eid : string) : bool :=
  bool_decide (eid ∈ Employee.id <$> Database.employees db).

Definition has_calculation (db : Database.t) (cid : string) : bool :=
  bool_decide (cid ∈ WageCalculation.id <$> Database.wage_calculations db).

(** [.single()]: the row when exactly one matches. *)
Definition single {A} (rows : list A) : option A :=
  match rows with [r] => Some r | _ => None end.

(** [.maybeSingle()] gives the same data as [.single()]: the row when
    exactly one matches, [null] otherwise. *)
Definition maybeSingle {A} (rows : list A) : option A := single rows.

(** [from('employees').select('*').eq('id', eid)] *)
Definition employees_by_id (db : Database.t) (eid : string) : list Employee.t :=
  filter (λ e, Employee.id e = eid) (Database.employees db).

(** [from('attendance').select('*').eq('employee_id', eid)
      .gte('date', lo).lte('date', hi)] *)
Definition attendance_in_range (db : Database.t) (eid lo hi : string)
  : list Attendance.t :=
  filter (λ r, Attendance.employee_id r = eid
               ∧ date_gte (Attendance.date r) lo = true
               ∧ date_lte (Attendance.date r) hi = true)
         (Database.attendance db).

(** [from('attendance').select('id').eq('employee_id', eid).eq('date', d)] *)
Definition attendance_by_key (db : Database.t) (eid d : string)
  : list Attendance.t :=
  filter (λ r, Attendance.employee_id r = eid ∧ Attendance.date r = d)
         (Database.attendance db).

(** *** Columns of type [decimal(p, 2)] and [integer]

    A number written to a [decimal(p, 2)] column is rounded to two
    decimals, ties away from zero; the write is refused (numeric field
    overflow) when the rounded value has more than [p - 2] integer digits.
    A number written to an [integer] column must be in the range of a
    32-bit integer. *)

(** The hundredths of the rounded value. *)
Definition hundredths (q : Qc) : Z :=
  let n := Qnum (this q) in
  let d := Z.pos (Qden (this q)) in
  (Z.sgn n * ((200 * Z.abs n + d) / (2 * d)))%Z.

(** The value a [decimal(p, 2)] column holds for [q]. *)
Definition round2 (q : Qc) : Qc := Q2Qc (Qred (hundredths q # 100)).

(** [q] can be held by a [decimal(p, 2)] column. *)
Definition fits (p : Z) (q : Qc) : bool :=
  bool_decide (Z.abs (hundredths q) < 10 ^ p)%Z.

(** [n] can be held by an [integer] column. *)
Definition fits_integer (n : Z) : bool :=
  bool_decide (- 2 ^ 31 ≤ n < 2 ^ 31)%Z.

(** The numbers of an attendance write can be held by [overtime_hours
    decimal(5,2)] and [advance_taken decimal(10,2)]; a field left out is
    not written. *)
Definition attendance_fits (row : AttendanceInsert.t) : bool :=
  from_option (fits 5) true (AttendanceInsert.overtime_hours row)
  && from_option (fits 10) true (AttendanceInsert.advance_taken row).

(** [INSERT INTO attendance]: the primary key, [UNIQUE(employee_id, date)],
    the reference to [employees] and the range of the decimal columns are
    checked; [id], [created_at], [updated_at] and the fields left out take
    their column defaults; the numbers are held rounded. *)
Definition insert_attendance (uuid db_now : string)
    (row : AttendanceInsert.t) (db : Database.t) : option Database.t :=
  if bool_decide (uuid ∈ Attendance.id <$> Database.attendance db) then None
  else if negb (has_employee db (AttendanceInsert.employee_id row)) then None
  else if negb (attendance_fits row) then None
  else match attendance_by_key db (AttendanceInsert.employee_id row)
               (AttendanceInsert.date row) with
       | _ :: _ => None
       | [] =>
           Some (Database.mk (Database.employees db)
                   (Database.attendance db ++
                      [Attendance.mk uuid
                         (AttendanceInsert.employee_id row)
                         (AttendanceInsert.date row)
                         (AttendanceInsert.status row)
                         (default 0%Qc
                            (round2 <$> AttendanceInsert.overtime_hours row))
                         (default 0%Qc
                            (round2 <$> AttendanceInsert.advance_taken row))
                         (AttendanceInsert.notes row) db_now db_now])
                   (Database.wage_calculations db) (Database.payments db))
       end.

(** The row after [.update({ ...attendanceRecord, updated_at })]: the
    fields present in the update are set (the numbers rounded), the others
    kept. *)
Definition set_attendance (row : AttendanceInsert.t) (updated : string)
    (r : Attendance.t) : Attendance.t :=
  Attendance.mk (Attendance.id r)
    (AttendanceInsert.employee_id row) (AttendanceInsert.date row)
    (AttendanceInsert.status row)
    (default (Attendance.overtime_hours r)
       (round2 <$> AttendanceInsert.overtime_hours row))
    (default (Attendance.advance_taken r)
       (round2 <$> AttendanceInsert.advance_taken row))
    (match AttendanceInsert.notes row with
     | Some n => Some n
     | None => Attendance.notes r
     end)
    (Attendance.created_at r) updated.

(** [UPDATE attendance SET ... WHERE id = aid]: rejected when the new key
    is held by another row, the employee does not exist or a number does
    not fit its column; no matching row is not an error. *)
Definition update_attendance (aid : string) (row : AttendanceInsert.t)
    (updated : string) (db : Database.t) : option Database.t :=
  if bool_decide (aid ∈ Attendance.id <$> Database.attendance db) then
    if negb (has_employee db (AttendanceInsert.employee_id row)) then None
    else if negb (attendance_fits row) then None
    else if forallb (λ r, bool_decide (Attendance.id r = aid))
               (attendance_by_key db (AttendanceInsert.employee_id row)
                  (AttendanceInsert.date row))
    then Some (Database.mk (Database.employees db)
                 ((λ r, if bool_decide (Attendance.id r = aid)
                        then set_attendance row updated r
                        else r) <$> Database.attendance db)
                 (Database.wage_calculations db) (Database.payments db))
    else None
  else Some db.

(** The counts and amounts of a calculation can be held by the three
    [integer] and the seven [decimal(10,2)] columns. *)
Definition calculation_fits (row : WageCalculation.t) : bool :=
  fits_integer (WageCalculation.present_days row)
  && fits_integer (WageCalculation.half_days row)
  && fits_integer (WageCalculation.absent_days row)
  && fits 10 (WageCalculation.total_overtime_hours row)
  && fits 10 (WageCalculation.base_wage row)
  && fits 10 (WageCalculation.overtime_amount row)
  && fits 10 (WageCalculation.half_day_amount row)
  && fits 10 (WageCalculation.total_advances row)
  && fits 10 (WageCalculation.gross_amount row)
  && fits 10 (WageCalculation.net_amount row).

(** The row as [wage_calculations] holds it: the seven amounts rounded to
    two decimals. *)
Definition round_calculation (row : WageCalculation.t) : WageCalculation.t :=
  WageCalculation.mk (WageCalculation.id row) (WageCalculation.employee_id row)
    (WageCalculation.period_start row) (WageCalculation.period_end row)
    (WageCalculation.period_type row) (WageCalculation.present_days row)
    (WageCalculation.half_days row) (WageCalculation.absent_days row)
    (round2 (WageCalculation.total_overtime_hours row))
    (round2 (WageCalculation.base_wage row))
    (round2 (WageCalculation.overtime_amount row))
    (round2 (WageCalculation.half_day_amount row))
    (round2 (WageCalculation.total_advances row))
    (round2 (WageCalculation.gross_amount row))
    (round2 (WageCalculation.net_amount row))
    (WageCalculation.is_paid row)
    (WageCalculation.created_at row) (WageCalculation.updated_at row).

(** [INSERT INTO wage_calculations]: primary key, the reference to
    [employees] and the range of the number columns; the amounts are held
    rounded. *)
Definition insert_wage_calculation (row : WageCalculation.t) (db : Database.t)
  : option Database.t :=
  if bool_decide (WageCalculation.id row
                    ∈ WageCalculation.id <$> Database.wage_calculations db) then None
  else if negb (has_employee db (WageCalculation.employee_id row)) then None
  else if negb (calculation_fits row) then None
  else Some (Database.mk (Database.employees db) (Database.attendance db)
               (Database.wage_calculations db ++ [round_calculation row])
               (Database.payments db)).

(** The row after [.update({ is_paid: true, updated_at })]. *)
Definition set_paid (updated : string) (c : WageCalculation.t)
  : WageCalculation.t :=
  WageCalculation.mk (WageCalculation.id c) (WageCalculation.employee_id c)
    (WageCalculation.period_start c) (WageCalculation.period_end c)
    (WageCalculation.period_type c) (WageCalculation.present_days c)
    (WageCalculation.half_days c) (WageCalculation.absent_days c)
    (WageCalculation.total_overtime_hours c) (WageCalculation.base_wage c)
    (WageCalculation.overtime_amount c) (WageCalculation.half_day_amount c)
    (WageCalculation.total_advances c) (WageCalculation.gross_amount c)
    (WageCalculation.net_amount c) true
    (WageCalculation.created_at c) updated.

(** [UPDATE wage_calculations SET is_paid = true, updated_at = ...
    WHERE id = cid]; no matching row is not an error. *)
Definition update_paid (cid updated : string) (db : Database.t) : Database.t :=
  Database.mk (Database.employees db) (Database.attendance db)
    ((λ c, if bool_decide (WageCalculation.id c = cid)
           then set_paid updated c else c) <$> Database.wage_calculations db)
    (Database.payments db).

(** [INSERT INTO payments]: primary key and the references to
    [wage_calculations] and [employees]. *)
Definition insert_payment (row : Payment.t) (db : Database.t)
  : option Database.t :=
  if bool_decide (Payment.id row ∈ Payment.id <$> Database.payments db) then None
  else if negb (has_calculation db (Payment.wage_calculation_id row)) then None
  else if negb (has_employee db (Payment.employee_id row)) then None
  else Some (Database.mk (Database.employees db) (Database.attendance db)
               (Database.wage_calculations db) (Database.payments db ++ [row])).

(** [.order(col, { ascending: false })] on a text or date column. *)
Definition order_desc {A} (col : A → string) (rows : list A) : list A :=
  merge_sort (λ x y, String.le (col y) (col x)) rows.

(** [.order(col)] *)
Definition order_asc {A} (col : A → string) (rows : list A) : list A :=
  merge_sort (λ x y, String.le (col x) (col y)) rows.

End Store.

(** ** [WagesModule.tsx] *)

Module WagesModule.

Record CalculationBreakdown := mkBreakdown {
  presentDays : Z;
  halfDays : Z;
  absentDays : Z;
  totalOvertimeHours : Qc;
  baseWage : Qc;
  overtimeAmount : Qc;
  halfDayAmount : Qc;
  totalAdvances : Qc;
  grossAmount : Qc;
  netAmount : Qc;
}.

(** The [useState] cells the handlers read or write. *)
Record State := mkState {
  selectedEmployee : string;
  periodType : PeriodType;
  startDate : string;
  endDate : string;
  breakdown : option CalculationBreakdown;
  calculations : list WageCalculation.t;
}.

Definition setBreakdown (b : CalculationBreakdown) (st : State) : State :=
  mkState (selectedEmployee st) (periodType st) (startDate st) (endDate st)
    (Some b) (calculations st).

Definition setCalculations (cs : list WageCalculation.t) (st : State) : State :=
  mkState (selectedEmployee st) (periodType st) (startDate st) (endDate st)
    (breakdown st) cs.

(** [fetchCalculations]: the 20 most recent calculations, of the selected
    employee when one is selected.  A failed query is logged and leaves
    the list as it was. *)
Definition fetchCalculations (fault : bool) (db : Database.t) (st : State)
  : State :=
  if fault then st
  else
    let rows :=
      if falsy (selectedEmployee st) then Database.wage_calculations db
      else filter (λ c, WageCalculation.employee_id c = selectedEmployee st)
             (Database.wage_calculations db) in
    setCalculations
      (take 20 (Store.order_desc WageCalculation.created_at rows)) st.

(** The five [let] counters of [calculateWages]. *)
Record Counters := mkCounters {
  c_presentDays : Z;
  c_halfDays : Z;
  c_absentDays : Z;
  c_totalOvertimeHours : Qc;
  c_totalAdvances : Qc;
}.

Definition counters0 : Counters := mkCounters 0 0 0 0%Qc 0%Qc.

(** The callback of [attendanceRecords.forEach]. *)
Definition count_record (acc : Counters) (record : Attendance.t) : Counters :=
  let '(p, h, a) :=
    if bool_decide (Attendance.status record = present)
    then (c_presentDays acc + 1, c_halfDays acc, c_absentDays acc)%Z
    else if bool_decide (Attendance.status record = half_day)
    then (c_presentDays acc, c_halfDays acc + 1, c_absentDays acc)%Z
    else if bool_decide (Attendance.status record = absent)
    then (c_presentDays acc, c_halfDays acc, c_absentDays acc + 1)%Z
    else (c_presentDays acc, c_halfDays acc, c_absentDays acc) in
  mkCounters p h a
    (c_totalOvertimeHours acc + Attendance.overtime_hours record)%Qc
    (c_totalAdvances acc + Attendance.advance_taken record)%Qc.

(** Lines 140-171 of [calculateWages]: the breakdown of the attendance
    records of one employee, the amounts on exact decimals
    ([Double.calculationBreakdown] has them as the doubles computed). *)
Definition calculationBreakdown (employee : Employee.t)
    (attendanceRecords : list Attendance.t) : CalculationBreakdown :=
  let acc := foldl count_record counters0 attendanceRecords in
  let baseWage := (Qc_of_Z (c_presentDays acc) * Employee.daily_wage employee)%Qc in
  let halfDayAmount := (Qc_of_Z (c_halfDays acc) * Employee.half_day_rate employee)%Qc in
  let overtimeAmount := (c_totalOvertimeHours acc * Employee.overtime_rate employee)%Qc in
  let grossAmount := (baseWage + halfDayAmount + overtimeAmount)%Qc in
  let netAmount := (grossAmount - c_totalAdvances acc)%Qc in
  mkBreakdown (c_presentDays acc) (c_halfDays acc) (c_absentDays acc)
    (c_totalOvertimeHours acc) baseWage overtimeAmount halfDayAmount
    (c_totalAdvances acc) grossAmount netAmount.

(** What the outside world contributes to one run of [calculateWages]. *)
Record CalcEnv := mkCalcEnv {
  employee_fault : bool;     (* the employee query fails *)
  attendance_fault : bool;   (* the attendance query fails *)
  calc_insert_fault : bool;  (* the insert fails *)
  calc_uuid : string;        (* gen_random_uuid() of the new row *)
  calc_db_now : string;      (* now() of the new row *)
  calc_refresh_fault : bool; (* the query of fetchCalculations fails *)
}.

Definition msg_select : string := "Please select an employee and date range".
Definition msg_not_found : string := "Employee not found".
Definition msg_calc_ok : string := "Wage calculation completed successfully!".
Definition msg_calc_error : string := "Error calculating wages".

(** The row handed to [insert]; [id], [created_at] and [updated_at] are
    the column defaults. *)
Definition wageCalculation (env : CalcEnv) (st : State)
    (b : CalculationBreakdown) : WageCalculation.t :=
  WageCalculation.mk (calc_uuid env) (selectedEmployee st)
    (startDate st) (endDate st) (periodType st)
    (presentDays b) (halfDays b) (absentDays b) (totalOvertimeHours b)
    (baseWage b) (overtimeAmount b) (halfDayAmount b) (totalAdvances b)
    (grossAmount b) (netAmount b) false
    (calc_db_now env) (calc_db_now env).

Definition calculateWages (env : CalcEnv) (db : Database.t) (st : State)
  : Database.t * State * option string :=
  if falsy (selectedEmployee st) || falsy (startDate st) || falsy (endDate st)
  then (db, st, Some msg_select)
  else
    match (if employee_fault env then None
           else Store.single (Store.employees_by_id db (selectedEmployee st))) with
    | None => (db, st, Some msg_not_found)
    | Some employee =>
        if attendance_fault env then (db, st, Some msg_calc_error)
        else
          let attendanceRecords :=
            Store.attendance_in_range db (selectedEmployee st)
              (startDate st) (endDate st) in
          let b := calculationBreakdown employee attendanceRecords in
          let st1 := setBreakdown b st in
          match (if calc_insert_fault env then None
                 else Store.insert_wage_calculation (wageCalculation env st b) db) with
          | None => (db, st1, Some msg_calc_error)
          | Some db1 =>
              (db1, fetchCalculations (calc_refresh_fault env) db1 st1,
               Some msg_calc_ok)
          end
    end.

(** What the outside world contributes to one run of [markAsPaid]. *)
Record PaidEnv := mkPaidEnv {
  confirm : bool;            (* the answer to confirm(...) *)
  update_now : string;       (* new Date().toISOString() of the update *)
  update_fault : bool;       (* the update fails *)
  insert_now : string;       (* new Date().toISOString() of the insert *)
  insert_fault : bool;       (* the insert fails *)
  paid_uuid : string;        (* gen_random_uuid() of the payment *)
  paid_db_now : string;      (* now() of the payment *)
  paid_refresh_fault : bool; (* the query of fetchCalculations fails *)
}.

Definition msg_paid_ok : string := "Marked as paid successfully!".
Definition msg_paid_error : string := "Error marking as paid".

(** The template literal of the payment's notes. *)
Definition payment_notes (calculation : WageCalculation.t) : string :=
  "Payment for " +:+ PeriodType_to_string (WageCalculation.period_type calculation)
    +:+ " period: " +:+ WageCalculation.period_start calculation
    +:+ " to " +:+ WageCalculation.period_end calculation.

(** The row handed to [from('payments').insert]. *)
Definition payment_row (env : PaidEnv) (calculationId : string)
    (calculation : WageCalculation.t) : Payment.t :=
  Payment.mk (paid_uuid env) calculationId
    (WageCalculation.employee_id calculation)
    (WageCalculation.net_amount calculation)
    (split_T_0 (insert_now env))
    (Some cash)
    (Some (payment_notes calculation))
    (paid_db_now env).

Definition markAsPaid (env : PaidEnv) (db : Database.t) (st : State)
    (calculationId : string) : Database.t * State * option string :=
  if negb (confirm env) then (db, st, None)
  else if update_fault env then (db, st, Some msg_paid_error)
  else
    let db1 := Store.update_paid calculationId (update_now env) db in
    match list_find (λ c, WageCalculation.id c = calculationId)
            (calculations st) with
    | Some (_, calculation) =>
        match (if insert_fault env then None
               else Store.insert_payment
                      (payment_row env calculationId calculation) db1) with
        | None => (db1, st, Some msg_paid_error)
        | Some db2 =>
            (db2, fetchCalculations (paid_refresh_fault env) db2 st,
             Some msg_paid_ok)
        end
    | None =>
        (db1, fetchCalculations (paid_refresh_fault env) db1 st,
         Some msg_paid_ok)
    end.

(** The "Mark as Paid" button of a row is rendered only when the row of
    the local list is not paid ([!calc.is_paid && ...]). *)
Definition button_shown (st : State) (calculationId : string) : bool :=
  bool_decide (Exists (λ c, WageCalculation.id c = calculationId
                            ∧ WageCalculation.is_paid c = false)
                 (calculations st)).

End WagesModule.

(** ** [AttendanceModule.tsx] *)

Module AttendanceModule.

Record State := mkState {
  selectedEmployee : string;
  selectedDate : string;
  currentAttendance : AttendanceInsert.t;
  attendanceData : list Attendance.t;
}.

(** What the outside world contributes to one run of [handleSubmit]. *)
Record Env := mkEnv {
  select_fault : bool;   (* the query for the existing row fails *)
  write_fault : bool;    (* the update or the insert fails *)
  write_now : string;    (* new Date().toISOString() of the update *)
  uuid : string;         (* gen_random_uuid() of an inserted row *)
  db_now : string;       (* now() of an inserted row *)
  reset_now : string;    (* new Date().toISOString() of resetForm *)
  history_fault : bool;  (* the query of fetchAttendanceHistory fails *)
}.

Definition msg_select : string := "Please select an employee and date".
Definition msg_ok : string := "Attendance marked successfully".
Definition msg_error : string := "Error marking attendance".

(** [fetchAttendanceHistory]: the 30 latest records of the employee. *)
Definition fetchAttendanceHistory (fault : bool) (db : Database.t)
    (employeeId : string) (st : State) : State :=
  if fault then st
  else mkState (selectedEmployee st) (selectedDate st) (currentAttendance st)
         (take 30 (Store.order_desc Attendance.date
            (filter (λ r, Attendance.employee_id r = employeeId)
               (Database.attendance db)))).

Definition resetForm (now : string) (st : State) : State :=
  mkState (selectedEmployee st) (split_T_0 now)
    (AttendanceInsert.mk "" "" present (Some 0%Qc) (Some 0%Qc) (Some ""))
    (attendanceData st).

(** The record built from the form at the top of [handleSubmit]. *)
Definition attendanceRecord (st : State) : AttendanceInsert.t :=
  AttendanceInsert.mk (selectedEmployee st) (selectedDate st)
    (AttendanceInsert.status (currentAttendance st))
    (Some (or_zero (AttendanceInsert.overtime_hours (currentAttendance st))))
    (Some (or_zero (AttendanceInsert.advance_taken (currentAttendance st))))
    (Some (or_empty (AttendanceInsert.notes (currentAttendance st)))).

Definition handleSubmit (env : Env) (db : Database.t) (st : State)
  : Database.t * State * option string :=
  if falsy (selectedEmployee st) || falsy (selectedDate st)
  then (db, st, Some msg_select)
  else
    let existing :=
      if select_fault env then None
      else Store.maybeSingle
             (Store.attendance_by_key db (selectedEmployee st) (selectedDate st)) in
    let written :=
      if write_fault env then None
      else match existing with
           | Some row =>
               Store.update_attendance (Attendance.id row)
                 (attendanceRecord st) (write_now env) db
           | None =>
               Store.insert_attendance (uuid env) (db_now env)
                 (attendanceRecord st) db
           end in
    match written with
    | None => (db, st, Some msg_error)
    | Some db1 =>
        (db1,
         fetchAttendanceHistory (history_fault env) db1 (selectedEmployee st)
           (resetForm (reset_now env) st),
         Some msg_ok)
    end.

End AttendanceModule.

(** ** [ReportModule.tsx] *)

Module ReportModule.

(** [interface PaymentReport extends Payment]: a payment with the rows its
    two references resolve to. *)
Record PaymentReport := mkPaymentReport {
  payment : Payment.t;
  employee : option Employee.t;
  calculation : option WageCalculation.t;
}.

Record EmployeeSummary := mkEmployeeSummary {
  s_employee : Employee.t;
  totalPayments : Qc;
  paymentCount : Z;
  lastPaymentDate : option string;
}.

Record State := mkState {
  payments : list PaymentReport;
  employees : list Employee.t;
  selectedEmployee : string;
  startDate : string;
  endDate : string;
  employeeSummaries : list EmployeeSummary;
}.

(** The value held by [summaryMap]. *)
Record Summary := mkSummary {
  total : Qc;
  count : Z;
  lastDate : string;
}.

(** [fetchEmployees]: every employee, by name. *)
Definition fetchEmployees (fault : bool) (db : Database.t) (st : State) : State :=
  if fault then st
  else mkState (payments st)
         (Store.order_asc Employee.name (Database.employees db))
         (selectedEmployee st) (startDate st) (endDate st)
         (employeeSummaries st).

(** The embedded resources [employee] and [calculation] that the select
    of [fetchPayments] asks for. *)
Definition report (db : Database.t) (p : Payment.t) : PaymentReport :=
  mkPaymentReport p
    (snd <$> list_find (λ e, Employee.id e = Payment.employee_id p)
               (Database.employees db))
    (snd <$> list_find (λ c, WageCalculation.id c = Payment.wage_calculation_id p)
               (Database.wage_calculations db)).

(** [.gte('payment_date', startDate).lte('payment_date', endDate)] *)
Definition payments_in_range (db : Database.t) (lo hi : string)
  : list Payment.t :=
  filter (λ p, date_gte (Payment.payment_date p) lo = true
               ∧ date_lte (Payment.payment_date p) hi = true)
         (Database.payments db).

(** [fetchPayments]: the payments of the range, latest first, of one
    employee unless [selectedEmployee] is ['all']. *)
Definition fetchPayments (fault : bool) (db : Database.t) (st : State) : State :=
  if fault then st
  else
    let rows := payments_in_range db (startDate st) (endDate st) in
    let rows :=
      if bool_decide (selectedEmployee st ≠ "all")
      then filter (λ p, Payment.employee_id p = selectedEmployee st) rows
      else rows in
    mkState (report db <$> Store.order_desc Payment.payment_date rows)
      (employees st) (selectedEmployee st) (startDate st) (endDate st)
      (employeeSummaries st).

(** The callback of [paymentData.forEach], the total on exact decimals
    ([Double.add_payment] has it as the double computed). *)
Definition add_payment (summaryMap : gmap string Summary) (p : Payment.t)
  : gmap string Summary :=
  let existing :=
    default (mkSummary 0%Qc 0 (Payment.payment_date p))
      (summaryMap !! Payment.employee_id p) in
  let existing :=
    mkSummary (total existing + Payment.amount p)%Qc (count existing + 1)%Z
      (if str_gt (Payment.payment_date p) (lastDate existing)
       then Payment.payment_date p else lastDate existing) in
  <[Payment.employee_id p := existing]> summaryMap.

Definition summaryMap_of (paymentData : list Payment.t) : gmap string Summary :=
  foldl add_payment ∅ paymentData.

(** The object pushed for one employee. *)
Definition summary_of (summaryMap : gmap string Summary) (emp : Employee.t)
  : EmployeeSummary :=
  let summary := summaryMap !! Employee.id emp in
  mkEmployeeSummary emp
    (or_zero (total <$> summary))
    (match summary with
     | Some s => if bool_decide (count s = 0%Z) then 0%Z else count s
     | None => 0%Z
     end)
    (match summary with
     | Some s => if falsy (lastDate s) then None else Some (lastDate s)
     | None => None
     end).

(** [fetchEmployeeSummaries] *)
Definition fetchEmployeeSummaries (fault : bool) (db : Database.t) (st : State)
  : State :=
  if fault then st
  else
    let summaryMap :=
      summaryMap_of (payments_in_range db (startDate st) (endDate st)) in
    let summaries := summary_of summaryMap <$> employees st in
    mkState (payments st) (employees st) (selectedEmployee st)
      (startDate st) (endDate st)
      (filter (λ s, (paymentCount s > 0)%Z) summaries).

(** [getTotalAmount], on exact decimals ([Double.getTotalAmount] has the
    double computed). *)
Definition getTotalAmount (st : State) : Qc :=
  foldl (λ sum p, (sum + Payment.amount (payment p))%Qc) 0%Qc (payments st).

End ReportModule.

(** ** The arithmetic of the components: IEEE 754 binary64

    A TypeScript [number] is a double.  Every sum, difference and product
    of [calculateWages], [fetchEmployeeSummaries] and [getTotalAmount] is
    rounded to the nearest double, ties to even.  This module embeds those
    computations with that arithmetic ([SpecFloat]: precision 53, exponents
    below 1024), on the fields the computations read. *)

Module Double.

Definition prec : Z := 53.
Definition emax : Z := 1024.

Definition zero : spec_float := S754_zero false.

Definition add (x y : spec_float) : spec_float := SFadd prec emax x y.
Definition sub (x y : spec_float) : spec_float := SFsub prec emax x y.
Definition mul (x y : spec_float) : spec_float := SFmul prec emax x y.

(** The double of an integer; exact below [2 ^ 53]. *)
Definition of_Z (n : Z) : spec_float := binary_normalize prec emax n 0 false.

(** The double nearest to [n / m], for [n] and [m] below [2 ^ 53]: what the
    decimal text of [n / m] is parsed to. *)
Definition decimal (n m : Z) : spec_float := SFdiv prec emax (of_Z n) (of_Z m).

(** The number a decimal of the store is read as. *)
Definition read (q : Qc) : spec_float :=
  decimal (Qnum (this q)) (Z.pos (Qden (this q))).

(** The exact value of a finite double. *)
Definition exact (x : spec_float) : Q :=
  match x with
  | S754_finite s m e =>
      (inject_Z (if s then Z.neg m else Z.pos m) * Qpower 2 e)%Q
  | _ => 0%Q
  end.

(** [x < y] *)
Definition less (x y : spec_float) : bool := SFltb x y.

(** [x < 0] *)
Definition negative (x : spec_float) : bool := less x zero.

(** [x || 0] on an optional number: [0], [-0] and [NaN] are falsy. *)
Definition or_zero (x : option spec_float) : spec_float :=
  match x with
  | Some (S754_zero _) | Some S754_nan | None => zero
  | Some v => v
  end.

(** The sum of a list of numbers, added from the left, starting from 0. *)
Definition sum (l : list spec_float) : spec_float := foldl add zero l.

(** *** [calculateWages], lines 140-158 *)

(** What the calculation reads of the employee. *)
Record Rates := mkRates {
  daily_wage : spec_float;
  overtime_rate : spec_float;
  half_day_rate : spec_float;
}.

(** What the calculation reads of an attendance record. *)
Record Day := mkDay {
  status : AttendanceStatus;
  overtime_hours : spec_float;
  advance_taken : spec_float;
}.

Definition rates_of (e : Employee.t) : Rates :=
  mkRates (read (Employee.daily_wage e)) (read (Employee.overtime_rate e))
    (read (Employee.half_day_rate e)).

Definition day_of (r : Attendance.t) : Day :=
  mkDay (Attendance.status r) (read (Attendance.overtime_hours r))
    (read (Attendance.advance_taken r)).

(** The five [let] counters; the three day counters are only ever
    incremented from 0 and are integers. *)
Record Counters := mkCounters {
  c_presentDays : Z;
  c_halfDays : Z;
  c_absentDays : Z;
  c_totalOvertimeHours : spec_float;
  c_totalAdvances : spec_float;
}.

Definition counters0 : Counters := mkCounters 0 0 0 zero zero.

(** The callback of [attendanceRecords.forEach]. *)
Definition count_record (acc : Counters) (record : Day) : Counters :=
  let '(p, h, a) :=
    if bool_decide (status record = present)
    then (c_presentDays acc + 1, c_halfDays acc, c_absentDays acc)%Z
    else if bool_decide (status record = half_day)
    then (c_presentDays acc, c_halfDays acc + 1, c_absentDays acc)%Z
    else if bool_decide (status record = absent)
    then (c_presentDays acc, c_halfDays acc, c_absentDays acc + 1)%Z
    else (c_presentDays acc, c_halfDays acc, c_absentDays acc) in
  mkCounters p h a
    (add (c_totalOvertimeHours acc) (overtime_hours record))
    (add (c_totalAdvances acc) (advance_taken record)).

Record CalculationBreakdown := mkBreakdown {
  presentDays : Z;
  halfDays : Z;
  absentDays : Z;
  totalOvertimeHours : spec_float;
  baseWage : spec_float;
  overtimeAmount : spec_float;
  halfDayAmount : spec_float;
  totalAdvances : spec_float;
  grossAmount : spec_float;
  netAmount : spec_float;
}.

Definition calculationBreakdown (employee : Rates)
    (attendanceRecords : list Day) : CalculationBreakdown :=
  let acc := foldl count_record counters0 attendanceRecords in
  let baseWage := mul (of_Z (c_presentDays acc)) (daily_wage employee) in
  let halfDayAmount := mul (of_Z (c_halfDays acc)) (half_day_rate employee) in
  let overtimeAmount := mul (c_totalOvertimeHours acc) (overtime_rate employee) in
  let grossAmount := add (add baseWage halfDayAmount) overtimeAmount in
  let netAmount := sub grossAmount (c_totalAdvances acc) in
  mkBreakdown (c_presentDays acc) (c_halfDays acc) (c_absentDays acc)
    (c_totalOvertimeHours acc) baseWage overtimeAmount halfDayAmount
    (c_totalAdvances acc) grossAmount netAmount.

(** The number of records of a list that have a given status. *)
Definition tally (s : AttendanceStatus) (A : list Day) : Z :=
  Z.of_nat (length (filter (λ r, status r = s) A)).

(** *** [fetchPayments], [fetchEmployeeSummaries] and [getTotalAmount] *)

(** What the report reads of a payment:
    [select('employee_id, amount, payment_date')]. *)
Record PaymentRow := mkPaymentRow {
  employee_id : string;
  amount : spec_float;
  payment_date : string;
}.

Definition row_of (p : Payment.t) : PaymentRow :=
  mkPaymentRow (Payment.employee_id p) (read (Payment.amount p))
    (Payment.payment_date p).

(** The value held by [summaryMap]. *)
Record Summary := mkSummary {
  total : spec_float;
  count : Z;
  lastDate : string;
}.

Record EmployeeSummary := mkEmployeeSummary {
  s_employee : Employee.t;
  totalPayments : spec_float;
  paymentCount : Z;
  lastPaymentDate : option string;
}.

(** [.gte('payment_date', startDate).lte('payment_date', endDate)], in the
    order of the store. *)
Definition payments_in_range (rows : list PaymentRow) (lo hi : string)
  : list PaymentRow :=
  filter (λ p, date_gte (payment_date p) lo = true
               ∧ date_lte (payment_date p) hi = true) rows.

(** The payments that [fetchPayments] lists: those of the range, of one
    employee unless [selectedEmployee] is ['all'], latest first. *)
Definition fetchPayments (rows : list PaymentRow)
    (selectedEmployee lo hi : string) : list PaymentRow :=
  let rows := payments_in_range rows lo hi in
  let rows :=
    if bool_decide (selectedEmployee ≠ "all")
    then filter (λ p, employee_id p = selectedEmployee) rows
    else rows in
  Store.order_desc payment_date rows.

(** The callback of [paymentData.forEach]. *)
Definition add_payment (summaryMap : gmap string Summary) (p : PaymentRow)
  : gmap string Summary :=
  let existing :=
    default (mkSummary zero 0 (payment_date p)) (summaryMap !! employee_id p) in
  let existing :=
    mkSummary (add (total existing) (amount p)) (count existing + 1)%Z
      (if str_gt (payment_date p) (lastDate existing)
       then payment_date p else lastDate existing) in
  <[employee_id p := existing]> summaryMap.

Definition summaryMap_of (paymentData : list PaymentRow)
  : gmap string Summary :=
  foldl add_payment ∅ paymentData.

(** The object pushed for one employee. *)
Definition summary_of (summaryMap : gmap string Summary) (emp : Employee.t)
  : EmployeeSummary :=
  let summary := summaryMap !! Employee.id emp in
  mkEmployeeSummary emp
    (or_zero (total <$> summary))
    (match summary with
     | Some s => if bool_decide (count s = 0%Z) then 0%Z else count s
     | None => 0%Z
     end)
    (match summary with
     | Some s => if falsy (lastDate s) then None else Some (lastDate s)
     | None => None
     end).

(** The summaries that [fetchEmployeeSummaries] sets, from the employees
    the component holds. *)
Definition fetchEmployeeSummaries (employees : list Employee.t)
    (rows : list PaymentRow) (lo hi : string) : list EmployeeSummary :=
  let summaryMap := summaryMap_of (payments_in_range rows lo hi) in
  let summaries := summary_of summaryMap <$> employees in
  filter (λ s, (paymentCount s > 0)%Z) summaries.

(** [payments.reduce((sum, payment) => sum + payment.amount, 0)] *)
Definition getTotalAmount (payments : list PaymentRow) : spec_float :=
  foldl (λ sum payment, add sum (amount payment)) zero payments.

(** The payments of one employee among a list of payments. *)
Definition of_employee (employeeId : string) (paymentData : list PaymentRow)
  : list PaymentRow :=
  filter (λ p, employee_id p = employeeId) paymentData.

End Double.

(** ** The declared constraints of the store *)

Module Constraints.

Definition attendance_key (r : Attendance.t) : string * string :=
  (Attendance.employee_id r, Attendance.date r).

(** [PRIMARY KEY], [UNIQUE] and [REFERENCES] of the migration. *)
Record holds (db : Database.t) : Prop := mk {
  employees_pk : NoDup (Employee.id <$> Database.employees db);
  employees_email : NoDup (Employee.email <$> Database.employees db);
  attendance_pk : NoDup (Attendance.id <$> Database.attendance db);
  attendance_unique : NoDup (attendance_key <$> Database.attendance db);
  attendance_fk :
    Forall (λ r, Store.has_employee db (Attendance.employee_id r) = true)
      (Database.attendance db);
  calculations_pk :
    NoDup (WageCalculation.id <$> Database.wage_calculations db);
  calculations_fk :
    Forall (λ c, Store.has_employee db (WageCalculation.employee_id c) = true)
      (Database.wage_calculations db);
  payments_pk : NoDup (Payment.id <$> Database.payments db);
  payments_fk_calculation :
    Forall (λ p, Store.has_calculation db (Payment.wage_calculation_id p) = true)
      (Database.payments db);
  payments_fk_employee :
    Forall (λ p, Store.has_employee db (Payment.employee_id p) = true)
      (Database.payments db);
}.

End Constraints.

(** ** Vocabulary of the statements *)

(** The number of records of a list that have a given status. *)
Definition tally (s : AttendanceStatus) (A : list Attendance.t) : Z :=
  Z.of_nat (length (filter (λ r, Attendance.status r = s) A)).

(** The payments that reference a calculation. *)
Definition payments_of (db : Database.t) (calculationId : string)
  : list Payment.t :=
  filter (λ p, Payment.wage_calculation_id p = calculationId)
    (Database.payments db).

(** The rows of the store with a given calculation id. *)
Definition calculation_rows (db : Database.t) (calculationId : string)
  : list WageCalculation.t :=
  filter (λ c, WageCalculation.id c = calculationId)
    (Database.wage_calculations db).

(** The calculation id occurs in the list the component displays. *)
Definition listed (st : WagesModule.State) (calculationId : string) : Prop :=
  calculationId ∈ WageCalculation.id <$> WagesModule.calculations st.

(** A row of the component's list and a row of the store agree on what
    [markAsPaid] reads from the former. *)
Definition agree (c' c : WageCalculation.t) : Prop :=
  WageCalculation.employee_id c' = WageCalculation.employee_id c
  ∧ WageCalculation.net_amount c' = WageCalculation.net_amount c
  ∧ WageCalculation.period_type c' = WageCalculation.period_type c
  ∧ WageCalculation.period_start c' = WageCalculation.period_start c
  ∧ WageCalculation.period_end c' = WageCalculation.period_end c.

(** The component's list is a copy of rows of the store, up to [is_paid] and
    [updated_at]. *)
Definition in_sync (db : Database.t) (st : WagesModule.State) : Prop :=
  ∀ c' c, c' ∈ WagesModule.calculations st →
          c ∈ Database.wage_calculations db →
          WageCalculation.id c' = WageCalculation.id c → agree c' c.

(** An attendance record carries the values of the form of the component,
    the two numbers as their columns hold them: rounded to two decimals. *)
Definition reflects (st : AttendanceModule.State) (r : Attendance.t) : Prop :=
  Attendance.employee_id r = AttendanceModule.selectedEmployee st
  ∧ Attendance.date r = AttendanceModule.selectedDate st
  ∧ Attendance.status r
    = AttendanceInsert.status (AttendanceModule.currentAttendance st)
  ∧ Attendance.overtime_hours r
    = Store.round2 (or_zero (AttendanceInsert.overtime_hours
                               (AttendanceModule.currentAttendance st)))
  ∧ Attendance.advance_taken r
    = Store.round2 (or_zero (AttendanceInsert.advance_taken
                               (AttendanceModule.currentAttendance st)))
  ∧ Attendance.notes r
    = Some (or_empty (AttendanceInsert.notes
                        (AttendanceModule.currentAttendance st))).

(** The numbers of the form can be held by their columns: fewer than 1000
    overtime hours and an advance below 100 000 000, after rounding. *)
Definition form_fits (st : AttendanceModule.State) : Prop :=
  Store.attendance_fits (AttendanceModule.attendanceRecord st) = true.

(** A decimal with at most two decimals. *)
Definition two_decimals (q : Qc) : Prop := ∃ k : Z, q = Q2Qc (k # 100).

(** The two numbers of the form have at most two decimals, as the [step]
    attributes of their inputs ask (0.5 and 0.01). *)
Definition form_two_decimals (st : AttendanceModule.State) : Prop :=
  two_decimals (or_zero (AttendanceInsert.overtime_hours
                           (AttendanceModule.currentAttendance st)))
  ∧ two_decimals (or_zero (AttendanceInsert.advance_taken
                             (AttendanceModule.currentAttendance st))).

(** An attendance record carries the values of the form, the two numbers
    as they are. *)
Definition carries (st : AttendanceModule.State) (r : Attendance.t) : Prop :=
  Attendance.employee_id r = AttendanceModule.selectedEmployee st
  ∧ Attendance.date r = AttendanceModule.selectedDate st
  ∧ Attendance.status r
    = AttendanceInsert.status (AttendanceModule.currentAttendance st)
  ∧ Attendance.overtime_hours r
    = or_zero (AttendanceInsert.overtime_hours
                 (AttendanceModule.currentAttendance st))
  ∧ Attendance.advance_taken r
    = or_zero (AttendanceInsert.advance_taken
                 (AttendanceModule.currentAttendance st))
  ∧ Attendance.notes r
    = Some (or_empty (AttendanceInsert.notes
                        (AttendanceModule.currentAttendance st))).

(** The payments of one employee among a list of payments. *)
Definition of_employee (employeeId : string) (paymentData : list Payment.t)
  : list Payment.t :=
  filter (λ p, Payment.employee_id p = employeeId) paymentData.

(** The number of payments of an employee in a date range. *)
Definition payment_count (db : Database.t) (lo hi employeeId : string) : Z :=
  Z.of_nat (length (of_employee employeeId
                      (ReportModule.payments_in_range db lo hi))).

(** The breakdown whose counts and amounts are all zero. *)
Definition zero_breakdown : WagesModule.CalculationBreakdown :=
  WagesModule.mkBreakdown 0 0 0 0%Qc 0%Qc 0%Qc 0%Qc 0%Qc 0%Qc 0%Qc.

(** The guard at the top of [calculateWages]: a selection is missing. *)
Definition selection_missing (st : WagesModule.State) : Prop :=
  WagesModule.selectedEmployee st = "" ∨ WagesModule.startDate st = ""
  ∨ WagesModule.endDate st = "".

(** The employee query of [calculateWages] yields no row. *)
Definition employee_unresolved (env : WagesModule.CalcEnv) (db : Database.t)
    (st : WagesModule.State) : Prop :=
  WagesModule.employee_fault env = true
  ∨ Store.single (Store.employees_by_id db (WagesModule.selectedEmployee st))
    = None.

(** The end date of the range is before its start date. *)
Definition range_inverted (st : WagesModule.State) : Prop :=
  str_gt (WagesModule.startDate st) (WagesModule.endDate st) = true.

(** The outcomes of [markAsPaid], one constructor per path through it. *)
Inductive markAsPaid_outcome (env : WagesModule.PaidEnv) (db : Database.t)
    (st : WagesModule.State) (calculationId : string)
  : Database.t * WagesModule.State * option string → Prop :=
  | paid_declined :
      WagesModule.confirm env = false →
      markAsPaid_outcome env db st calculationId (db, st, None)
  | paid_update_failed :
      WagesModule.confirm env = true →
      WagesModule.update_fault env = true →
      markAsPaid_outcome env db st calculationId
        (db, st, Some WagesModule.msg_paid_error)
  | paid_insert_failed i calculation :
      WagesModule.confirm env = true →
      WagesModule.update_fault env = false →
      list_find (λ c, WageCalculation.id c = calculationId)
        (WagesModule.calculations st) = Some (i, calculation) →
      (WagesModule.insert_fault env = true
       ∨ Store.insert_payment
           (WagesModule.payment_row env calculationId calculation)
           (Store.update_paid calculationId (WagesModule.update_now env) db)
         = None) →
      markAsPaid_outcome env db st calculationId
        (Store.update_paid calculationId (WagesModule.update_now env) db,
         st, Some WagesModule.msg_paid_error)
  | paid_recorded i calculation db2 :
      WagesModule.confirm env = true →
      WagesModule.update_fault env = false →
      list_find (λ c, WageCalculation.id c = calculationId)
        (WagesModule.calculations st) = Some (i, calculation) →
      WagesModule.insert_fault env = false →
      Store.insert_payment
        (WagesModule.payment_row env calculationId calculation)
        (Store.update_paid calculationId (WagesModule.update_now env) db)
      = Some db2 →
      markAsPaid_outcome env db st calculationId
        (db2,
         WagesModule.fetchCalculations (WagesModule.paid_refresh_fault env) db2 st,
         Some WagesModule.msg_paid_ok)
  | paid_unlisted :
      WagesModule.confirm env = true →
      WagesModule.update_fault env = false →
      list_find (λ c, WageCalculation.id c = calculationId)
        (WagesModule.calculations st) = None →
      markAsPaid_outcome env db st calculationId
        (Store.update_paid calculationId (WagesModule.update_now env) db,
         WagesModule.fetchCalculations (WagesModule.paid_refresh_fault env)
           (Store.update_paid calculationId (WagesModule.update_now env) db) st,
         Some WagesModule.msg_paid_ok).

(** ** The scenario of the specification, and variations on it

    An employee with daily wage 100, overtime rate 20 and half-day rate 50;
    five days of attendance: three present, one half-day, one absent, two
    overtime hours on one present day and an advance of 30 on another. *)

Module Scenario.

Definition amount (n : Z) : Qc := Q2Qc (inject_Z n).

Definition employee (eid name email : string) : Employee.t :=
  Employee.mk eid name email None None
    (amount 100) (amount 20) (amount 50) true
    "2025-11-01T08:00:00.000Z" "2025-11-01T08:00:00.000Z".

Definition alice : Employee.t := employee "e1" "Alice" "alice@example.org".
Definition bob : Employee.t := employee "e2" "Bob" "bob@example.org".

Definition record (aid day : string) (s : AttendanceStatus)
    (overtime advance : Z) : Attendance.t :=
  Attendance.mk aid "e1" day s (amount overtime) (amount advance) (Some "")
    "2025-11-21T18:00:00.000Z" "2025-11-21T18:00:00.000Z".

Definition week : list Attendance.t :=
  [ record "a1" "2025-11-17" present 2 0;
    record "a2" "2025-11-18" present 0 30;
    record "a3" "2025-11-19" present 0 0;
    record "a4" "2025-11-20" half_day 0 0;
    record "a5" "2025-11-21" absent 0 0 ].

Definition db0 : Database.t := Database.mk [alice; bob] week [] [].

Definition breakdown360 : WagesModule.CalculationBreakdown :=
  WagesModule.mkBreakdown 3 1 1 (amount 2) (amount 300) (amount 40)
    (amount 50) (amount 30) (amount 390) (amount 360).

(** *** Calculating the week *)

Definition wages0 : WagesModule.State :=
  WagesModule.mkState "e1" weekly "2025-11-17" "2025-11-21" None [].

Definition calc_env : WagesModule.CalcEnv :=
  WagesModule.mkCalcEnv false false false "c1" "2025-11-22T09:00:00.000Z" false.

Definition calculated : Database.t * WagesModule.State * option string :=
  WagesModule.calculateWages calc_env db0 wages0.

Definition db1 : Database.t := calculated.1.1.
Definition wages1 : WagesModule.State := calculated.1.2.

(** The row that the calculation stores. *)
Definition c1 : WageCalculation.t :=
  WageCalculation.mk "c1" "e1" "2025-11-17" "2025-11-21" weekly 3 1 1
    (amount 2) (amount 300) (amount 40) (amount 50) (amount 30)
    (amount 390) (amount 360) false
    "2025-11-22T09:00:00.000Z" "2025-11-22T09:00:00.000Z".

(** The same request with the two dates exchanged. *)
Definition wages_inverted : WagesModule.State :=
  WagesModule.mkState "e1" weekly "2025-11-21" "2025-11-17" None [].

(** *** Marking the calculation as paid *)

Definition paid_env (payment_id : string) (insert_fault refresh_fault : bool)
  : WagesModule.PaidEnv :=
  WagesModule.mkPaidEnv true "2025-11-22T10:00:00.000Z" false
    "2025-11-22T10:00:01.000Z" insert_fault payment_id
    "2025-11-22T10:00:01.500Z" refresh_fault.

(** A first run whose refresh of the list fails, so that the list still
    shows the calculation as pending, and a second run. *)
Definition paid_once : Database.t * WagesModule.State * option string :=
  WagesModule.markAsPaid (paid_env "p1" false true) db1 wages1 "c1".

Definition paid_twice : Database.t * WagesModule.State * option string :=
  WagesModule.markAsPaid (paid_env "p2" false false)
    paid_once.1.1 paid_once.1.2 "c1".

(** A run whose insert of the payment fails. *)
Definition paid_torn : Database.t * WagesModule.State * option string :=
  WagesModule.markAsPaid (paid_env "p1" true false) db1 wages1 "c1".

(** *** Marking attendance twice for the same day *)

Definition att_env (aid : string) : AttendanceModule.Env :=
  AttendanceModule.mkEnv false false "2025-11-24T18:00:00.000Z" aid
    "2025-11-24T18:00:00.100Z" "2025-11-24T18:00:00.200Z" false.

Definition form1 : AttendanceModule.State :=
  AttendanceModule.mkState "e1" "2025-11-24"
    (AttendanceInsert.mk "" "" present (Some (amount 1)) (Some (amount 0))
       (Some "first"))
    [].

Definition form2 : AttendanceModule.State :=
  AttendanceModule.mkState "e1" "2025-11-24"
    (AttendanceInsert.mk "" "" half_day None (Some (amount 25)) None)
    [].

(** *** A month of payments *)

Definition calc (cid eid : string) (net : Z) : WageCalculation.t :=
  WageCalculation.mk cid eid "2025-11-17" "2025-11-21" weekly 0 0 0
    (amount 0) (amount 0) (amount 0) (amount 0) (amount 0)
    (amount net) (amount net) true
    "2025-11-22T09:00:00.000Z" "2025-11-22T10:00:00.000Z".

Definition pay (pid cid eid : string) (net : Z) (day : string) : Payment.t :=
  Payment.mk pid cid eid (amount net) day (Some cash) None
    "2025-11-22T10:00:01.500Z".

Definition db_month : Database.t :=
  Database.mk [bob; alice] week
    [calc "c1" "e1" 360; calc "c2" "e2" 100; calc "c3" "e1" 40;
     calc "c4" "e2" 75]
    [pay "p1" "c1" "e1" 360 "2025-11-22";
     pay "p2" "c2" "e2" 100 "2025-11-23";
     pay "p3" "c3" "e1" 40 "2025-11-24";
     pay "p4" "c4" "e2" 75 "2025-12-02"].

Definition report0 : ReportModule.State :=
  ReportModule.mkState [] [] "all" "2025-11-01" "2025-11-30" [].

End Scenario.

(** ** The employee list of the wage and attendance views *)

Module WagesView.

(** [fetchEmployees] of [WagesModule.tsx] (and, word for word, of
    [AttendanceModule.tsx]): the active employees, by name; the value
    handed to [setEmployees].  A failed query is logged and leaves the list
    as it was. *)
Definition fetchEmployees (fault : bool) (db : Database.t)
    (employees : list Employee.t) : list Employee.t :=
  if fault then employees
  else Store.order_asc Employee.name
         (filter (λ e, Employee.is_active e = true) (Database.employees db)).

(** [getEmployeeName]: [emp?.name || 'Unknown']. *)
Definition getEmployeeName (employees : list Employee.t) (employeeId : string)
  : string :=
  match list_find (λ e, Employee.id e = employeeId) employees with
  | Some (_, emp) =>
      if falsy (Employee.name emp) then "Unknown" else Employee.name emp
  | None => "Unknown"
  end.

End WagesView.

(** ** Further vocabulary *)

(** A list is ordered by a text column, greatest first. *)
Definition greatest_first {A} (col : A → string) (rows : list A) : Prop :=
  StronglySorted (λ x y, String.le (col y) (col x)) rows.

(** The counts and amounts a stored calculation carries. *)
Definition row_breakdown (c : WageCalculation.t)
  : WagesModule.CalculationBreakdown :=
  WagesModule.mkBreakdown (WageCalculation.present_days c)
    (WageCalculation.half_days c) (WageCalculation.absent_days c)
    (WageCalculation.total_overtime_hours c) (WageCalculation.base_wage c)
    (WageCalculation.overtime_amount c) (WageCalculation.half_day_amount c)
    (WageCalculation.total_advances c) (WageCalculation.gross_amount c)
    (WageCalculation.net_amount c).

(** Two rows of [wage_calculations] differ at most in [is_paid] and
    [updated_at]. *)
Definition same_but_paid (c c' : WageCalculation.t) : Prop :=
  WageCalculation.id c' = WageCalculation.id c
  ∧ WageCalculation.employee_id c' = WageCalculation.employee_id c
  ∧ WageCalculation.period_start c' = WageCalculation.period_start c
  ∧ WageCalculation.period_end c' = WageCalculation.period_end c
  ∧ WageCalculation.period_type c' = WageCalculation.period_type c
  ∧ row_breakdown c' = row_breakdown c
  ∧ WageCalculation.created_at c' = WageCalculation.created_at c.

(** Every payment carries the net amount and the employee of the
    calculation it references. *)
Definition payments_match (db : Database.t) : Prop :=
  ∀ p c, p ∈ Database.payments db →
         c ∈ Database.wage_calculations db →
         Payment.wage_calculation_id p = WageCalculation.id c →
         Payment.amount p = WageCalculation.net_amount c
         ∧ Payment.employee_id p = WageCalculation.employee_id c.

(** The attendance records of the other (employee, date) keys. *)
Definition other_keys (eid d : string) (rows : list Attendance.t)
  : list Attendance.t :=
  filter (λ r, ¬ (Attendance.employee_id r = eid ∧ Attendance.date r = d)) rows.

(** The form of the attendance view after [resetForm]. *)
Definition blank_form : AttendanceInsert.t :=
  AttendanceInsert.mk "" "" present (Some 0%Qc) (Some 0%Qc) (Some "").

(** [setSelectedEmployee] of the report view. *)
Definition report_select (employeeId : string) (st : ReportModule.State)
  : ReportModule.State :=
  ReportModule.mkState (ReportModule.payments st) (ReportModule.employees st)
    employeeId (ReportModule.startDate st) (ReportModule.endDate st)
    (ReportModule.employeeSummaries st).

(** The dates of the payments of an employee in the range of the report. *)
Definition payment_dates (db : Database.t) (st : ReportModule.State)
    (employeeId : string) : list string :=
  Payment.payment_date
    <$> of_employee employeeId
          (ReportModule.payments_in_range db (ReportModule.startDate st)
             (ReportModule.endDate st)).

(** ** Further cases *)

Module Cases.

(** A deactivated employee. *)
Definition carol : Employee.t :=
  Employee.mk "e3" "Carol" "carol@example.org" None None
    (Scenario.amount 90) (Scenario.amount 15) (Scenario.amount 45) false
    "2025-10-01T08:00:00.000Z" "2025-11-10T08:00:00.000Z".

Definition db_staff : Database.t :=
  Database.mk [Scenario.bob; carol; Scenario.alice] Scenario.week [] [].

(** The component lists a calculation that the store no longer has. *)
Definition wages_stale : WagesModule.State :=
  WagesModule.mkState "e1" weekly "2025-11-17" "2025-11-21" None
    [Scenario.calc "c9" "e1" 120].

(** The component lists nothing, the store has the calculation. *)
Definition wages_unlisted : WagesModule.State :=
  WagesModule.mkState "e1" weekly "2025-11-17" "2025-11-21" None [].

(** A second request for the same week. *)
Definition calc_env2 : WagesModule.CalcEnv :=
  WagesModule.mkCalcEnv false false false "c2" "2025-11-22T09:30:00.000Z" false.

(** Marking a day that has a record while the lookup fails. *)
Definition att_env_lookup_fault : AttendanceModule.Env :=
  AttendanceModule.mkEnv true false "2025-11-24T18:00:00.000Z" "a8"
    "2025-11-24T18:00:00.100Z" "2025-11-24T18:00:00.200Z" false.

Definition form_existing : AttendanceModule.State :=
  AttendanceModule.mkState "e1" "2025-11-17"
    (AttendanceInsert.mk "" "" absent None None None) [].

(** A report whose range ends before it starts. *)
Definition report_inverted : ReportModule.State :=
  ReportModule.mkState [] [Scenario.alice; Scenario.bob] "all"
    "2025-11-30" "2025-11-01" [].

(** Overtime hours that [decimal(5,2)] cannot hold. *)
Definition form_overflow : AttendanceModule.State :=
  AttendanceModule.mkState "e1" "2025-11-24"
    (AttendanceInsert.mk "" "" present (Some (Scenario.amount 1000))
       (Some (Scenario.amount 0)) None)
    [].

(** Rates and hours with cents: a daily wage of 100.10, an overtime rate of
    20.15, a half-day rate of 50.20; three days present, seven overtime
    hours on the first, and one half day. *)
Definition rates_cents : Double.Rates :=
  Double.mkRates (Double.decimal 10010 100) (Double.decimal 2015 100)
    (Double.decimal 5020 100).

Definition days_cents : list Double.Day :=
  [ Double.mkDay present (Double.of_Z 7) Double.zero;
    Double.mkDay present Double.zero Double.zero;
    Double.mkDay present Double.zero Double.zero;
    Double.mkDay half_day Double.zero Double.zero ].

(** The rates and the week of the scenario, as the component reads them. *)
Definition rates_alice : Double.Rates := Double.rates_of Scenario.alice.
Definition days_week : list Double.Day := Double.day_of <$> Scenario.week.

(** One absent day with an advance of 50. *)
Definition days_advance : list Double.Day :=
  [ Double.mkDay absent Double.zero (Double.of_Z 50) ].

(** Three payments of one employee, of 360.10, 40.30 and 75.15, in the
    order of their dates. *)
Definition payments_cents : list Double.PaymentRow :=
  [ Double.mkPaymentRow "e1" (Double.decimal 36010 100) "2025-11-22";
    Double.mkPaymentRow "e1" (Double.decimal 4030 100) "2025-11-23";
    Double.mkPaymentRow "e1" (Double.decimal 7515 100) "2025-11-24" ].

(** The payments of the month of the scenario, as the report reads them. *)
Definition payments_month : list Double.PaymentRow :=
  Double.row_of <$> Database.payments Scenario.db_month.

End Cases.

(** * Properties *)

(** ** Arithmetic on decimals *)

Lemma Qc_of_Z_0 : Qc_of_Z 0 = 0%Qc.
Proof. apply Qc_is_canon. reflexivity. Qed.

Lemma Qcminus_0_diag : (0 - 0)%Qc = 0%Qc.
Proof. ring. Qed.

Lemma sum_Qc_app (l k : list Qc) : sum_Qc (l ++ k) = (sum_Qc l + sum_Qc k)%Qc.
Proof.
  induction l as [|x l IH]; simpl.
  - by rewrite Qcplus_0_l.
  - rewrite IH. ring.
Qed.

(** ** The decimal columns *)

Lemma round2_0 : Store.round2 0 = 0%Qc.
Proof. apply Qc_is_canon. vm_compute. reflexivity. Qed.

Lemma hundredths_two_decimals (k : Z) : Store.hundredths (Q2Qc (k # 100)) = k.
Proof.
  unfold Store.hundredths.
  pose proof (Qred_correct (k # 100)) as Heq.
  change (this (Q2Qc (k # 100))) with (Qred (k # 100)).
  destruct (Qred (k # 100)) as [n d]. unfold Qeq in Heq. simpl in *.
  assert (Z.sgn n = Z.sgn k) as Hs by nia.
  assert (100 * Z.abs n = Z.abs k * Z.pos d)%Z as Ha by nia.
  replace (200 * Z.abs n + Z.pos d)%Z
    with (Z.abs k * (2 * Z.pos d) + Z.pos d)%Z by lia.
  rewrite Z.div_add_l by lia.
  rewrite Z.div_small by lia. rewrite Hs. lia.
Qed.

(** A number with at most two decimals is held as it is. *)
Lemma round2_two_decimals (q : Qc) : two_decimals q → Store.round2 q = q.
Proof.
  intros [k ->]. unfold Store.round2. rewrite hundredths_two_decimals.
  apply Qc_is_canon. simpl. by rewrite !Qred_correct.
Qed.

(** The held value is a nearest hundredth: [|100 q - h| <= 1/2]. *)
Lemma hundredths_nearest (q : Qc) :
  let n := Qnum (this q) in
  let d := Z.pos (Qden (this q)) in
  (Z.abs (2 * d * Store.hundredths q - 200 * n) ≤ d)%Z.
Proof.
  intros n d. unfold Store.hundredths. fold n d.
  assert (0 < d)%Z as Hd by (unfold d; lia).
  pose proof (Z.div_mod (200 * Z.abs n + d) (2 * d) ltac:(lia)) as Hdiv.
  pose proof (Z.mod_pos_bound (200 * Z.abs n + d) (2 * d) ltac:(lia)) as Hmod.
  destruct (Z.sgn_spec n) as [(? & ->)|[(? & ->)|(? & ->)]]; lia.
Qed.

(** 12.345 is held as 12.35, -0.005 as -0.01, 999.994 as 999.99. *)
Example round2_ties :
  Store.round2 (Q2Qc (12345 # 1000)) = Q2Qc (1235 # 100)
  ∧ Store.round2 (Q2Qc (-5 # 1000)) = Q2Qc (-1 # 100)
  ∧ Store.round2 (Q2Qc (999994 # 1000)) = Q2Qc (99999 # 100).
Proof. repeat split; apply Qc_is_canon; vm_compute; reflexivity. Qed.

(** 1000 hours cannot be held by [decimal(5,2)], nor can 999.995. *)
Example fits_overflow :
  Store.fits 5 (Q2Qc (inject_Z 1000)) = false
  ∧ Store.fits 5 (Q2Qc (999995 # 1000)) = false
  ∧ Store.fits 5 (Q2Qc (999994 # 1000)) = true.
Proof. vm_compute. repeat split. Qed.

(** ** The wage calculation *)

Lemma single_Some_elem {A} (rows : list A) (r : A) :
  Store.single rows = Some r → rows = [r].
Proof. destruct rows as [|x [|y rows]]; simpl; congruence. Qed.

Section calculationBreakdown.
Import WagesModule.

Lemma tally_cons s r A :
  tally s (r :: A)
  = ((if bool_decide (Attendance.status r = s) then 1 else 0) + tally s A)%Z.
Proof.
  unfold tally. rewrite filter_cons.
  case_bool_decide; case_decide; try done; simpl length; lia.
Qed.

(** The loop, from any values of the counters. *)
Lemma foldl_count_record (A : list Attendance.t) (acc : Counters) :
  let acc' := foldl count_record acc A in
  c_presentDays acc' = (c_presentDays acc + tally present A)%Z
  ∧ c_halfDays acc' = (c_halfDays acc + tally half_day A)%Z
  ∧ c_absentDays acc' = (c_absentDays acc + tally absent A)%Z
  ∧ c_totalOvertimeHours acc'
    = (c_totalOvertimeHours acc + sum_Qc (Attendance.overtime_hours <$> A))%Qc
  ∧ c_totalAdvances acc'
    = (c_totalAdvances acc + sum_Qc (Attendance.advance_taken <$> A))%Qc.
Proof.
  revert acc. induction A as [|r A IH]; intros acc; simpl.
  - unfold tally; simpl. repeat split; try lia; by rewrite Qcplus_0_r.
  - destruct (IH (count_record acc r)) as (Hp & Hh & Ha & Ho & Hv).
    rewrite Hp, Hh, Ha, Ho, Hv, !tally_cons. clear.
    unfold count_record.
    destruct (Attendance.status r); simpl;
      repeat split; try lia; symmetry; apply Qcplus_assoc.
Qed.


End calculationBreakdown.

(** The day counts of the breakdown are the numbers of records of each
    status. *)
Lemma calculationBreakdown_tallies (employee : Employee.t)
    (A : list Attendance.t) :
  let b := WagesModule.calculationBreakdown employee A in
  WagesModule.presentDays b = tally present A
  ∧ WagesModule.halfDays b = tally half_day A
  ∧ WagesModule.absentDays b = tally absent A.
Proof.
  unfold WagesModule.calculationBreakdown. simpl.
  destruct (foldl_count_record A WagesModule.counters0) as (Hp & Hh & Ha & _).
  simpl in *. by rewrite Hp, Hh, Ha, !Z.add_0_l.
Qed.

Section double_breakdown.
Import Double.

Lemma double_tally_cons s r A :
  Double.tally s (r :: A)
  = ((if bool_decide (status r = s) then 1 else 0) + Double.tally s A)%Z.
Proof.
  unfold Double.tally. rewrite filter_cons.
  case_bool_decide; case_decide; try done; simpl length; lia.
Qed.

(** The loop in double arithmetic, from any values of the counters: the
    two sums are taken from the left, in the order of the records. *)
Lemma double_foldl_count_record (A : list Day) (acc : Counters) :
  let acc' := foldl count_record acc A in
  c_presentDays acc' = (c_presentDays acc + Double.tally present A)%Z
  ∧ c_halfDays acc' = (c_halfDays acc + Double.tally half_day A)%Z
  ∧ c_absentDays acc' = (c_absentDays acc + Double.tally absent A)%Z
  ∧ c_totalOvertimeHours acc'
    = foldl add (c_totalOvertimeHours acc) (overtime_hours <$> A)
  ∧ c_totalAdvances acc'
    = foldl add (c_totalAdvances acc) (advance_taken <$> A).
Proof.
  revert acc. induction A as [|r A IH]; intros acc; simpl.
  - unfold Double.tally; simpl. repeat split; lia.
  - destruct (IH (count_record acc r)) as (Hp & Hh & Ha & Ho & Hv).
    rewrite Hp, Hh, Ha, Ho, Hv, !double_tally_cons. clear.
    unfold count_record.
    destruct (status r); simpl; repeat split; lia.
Qed.

End double_breakdown.

(** C1, as the code has it.  For every employee and every list of
    attendance records the breakdown computed by [calculateWages] has
    base_wage = present_days * daily_wage,
    half_day_amount = half_days * half_day_rate,
    overtime_amount = total_overtime_hours * overtime_rate,
    gross_amount = (base_wage + half_day_amount) + overtime_amount and
    net_amount = gross_amount - total_advances, each product, sum and
    difference being the double-precision result of the operation on its
    operands; the day counts are the numbers of records of each status, and
    total_overtime_hours and total_advances are the sums of the records'
    values added in double precision from the left, in the order of the
    records.  Nothing clamps the net amount: there are records whose
    advances exceed the gross amount, and their net amount is negative. *)
Theorem calculationBreakdown_double_amounts :
  (∀ (employee : Double.Rates) (A : list Double.Day),
     let b := Double.calculationBreakdown employee A in
     Double.presentDays b = Double.tally present A
     ∧ Double.halfDays b = Double.tally half_day A
     ∧ Double.absentDays b = Double.tally absent A
     ∧ Double.totalOvertimeHours b = Double.sum (Double.overtime_hours <$> A)
     ∧ Double.totalAdvances b = Double.sum (Double.advance_taken <$> A)
     ∧ Double.baseWage b
       = Double.mul (Double.of_Z (Double.tally present A))
           (Double.daily_wage employee)
     ∧ Double.halfDayAmount b
       = Double.mul (Double.of_Z (Double.tally half_day A))
           (Double.half_day_rate employee)
     ∧ Double.overtimeAmount b
       = Double.mul (Double.sum (Double.overtime_hours <$> A))
           (Double.overtime_rate employee)
     ∧ Double.grossAmount b
       = Double.add (Double.add (Double.baseWage b) (Double.halfDayAmount b))
           (Double.overtimeAmount b)
     ∧ Double.netAmount b
       = Double.sub (Double.grossAmount b) (Double.totalAdvances b))
  ∧ (∃ (employee : Double.Rates) (A : list Double.Day),
       let b := Double.calculationBreakdown employee A in
       Double.less (Double.grossAmount b) (Double.totalAdvances b) = true
       ∧ Double.negative (Double.netAmount b) = true).
Proof.
  split.
  - intros employee A b. subst b. unfold Double.calculationBreakdown.
    destruct (double_foldl_count_record A Double.counters0)
      as (Hp & Hh & Ha & Ho & Hv).
    cbn [Double.presentDays Double.halfDays Double.absentDays
         Double.totalOvertimeHours Double.totalAdvances Double.baseWage
         Double.halfDayAmount Double.overtimeAmount Double.grossAmount
         Double.netAmount].
    rewrite Hp, Hh, Ha, Ho, Hv. cbn [Double.counters0 Double.c_presentDays
      Double.c_halfDays Double.c_absentDays Double.c_totalOvertimeHours
      Double.c_totalAdvances]. rewrite !Z.add_0_l.
    repeat split.
  - exists Cases.rates_alice, Cases.days_advance. vm_compute. by split.
Qed.

(** C1, as stated, fails: the equations do not hold exactly.  At a daily
    wage of 100.10, three days present give a base wage of
    300.29999999999995, which is neither 300.30 nor three times the wage
    the computation read; seven overtime hours at 20.15 give
    141.04999999999998; and the gross amount is not the exact sum of its
    three parts. *)
Lemma calculationBreakdown_inexact :
  let b := Double.calculationBreakdown Cases.rates_cents Cases.days_cents in
  Double.presentDays b = 3%Z
  ∧ Double.baseWage b = S754_finite false 5282933469138124 (-44)
  ∧ Double.baseWage b ≠ Double.decimal 30030 100
  ∧ ¬ (Double.exact (Double.baseWage b)
       == 3 * Double.exact (Double.daily_wage Cases.rates_cents))%Q
  ∧ Double.totalOvertimeHours b = Double.of_Z 7
  ∧ Double.overtimeAmount b ≠ Double.decimal 14105 100
  ∧ ¬ (Double.exact (Double.overtimeAmount b)
       == 7 * Double.exact (Double.overtime_rate Cases.rates_cents))%Q
  ∧ ¬ (Double.exact (Double.grossAmount b)
       == Double.exact (Double.baseWage b)
          + Double.exact (Double.halfDayAmount b)
          + Double.exact (Double.overtimeAmount b))%Q.
Proof.
  cbv zeta. split_and!.
  - vm_compute. reflexivity.
  - vm_compute. reflexivity.
  - vm_compute. discriminate.
  - intros H. vm_compute in H. discriminate.
  - vm_compute. reflexivity.
  - vm_compute. discriminate.
  - intros H. vm_compute in H. discriminate.
  - intros H. vm_compute in H. discriminate.
Qed.

Lemma double_tally_day_of s (A : list Attendance.t) :
  Double.tally s (Double.day_of <$> A) = tally s A.
Proof.
  induction A as [|r A IH]; [done|].
  rewrite fmap_cons, double_tally_cons, tally_cons, IH. done.
Qed.

(** The two embeddings of the loop count the same days. *)
Lemma double_counts_agree (e : Employee.t) (A : list Attendance.t) :
  let b := WagesModule.calculationBreakdown e A in
  let b' := Double.calculationBreakdown (Double.rates_of e)
              (Double.day_of <$> A) in
  Double.presentDays b' = WagesModule.presentDays b
  ∧ Double.halfDays b' = WagesModule.halfDays b
  ∧ Double.absentDays b' = WagesModule.absentDays b.
Proof.
  intros b b'. subst b.
  destruct (calculationBreakdown_tallies e A) as (-> & -> & ->).
  unfold b', Double.calculationBreakdown.
  destruct (double_foldl_count_record (Double.day_of <$> A) Double.counters0)
    as (Hp & Hh & Ha & _).
  cbn [Double.presentDays Double.halfDays Double.absentDays].
  rewrite Hp, Hh, Ha, !double_tally_day_of. done.
Qed.

(** On whole numbers the double computation is exact: the scenario of the
    specification gives 300, 50, 40, 390 and 360. *)
Example scenario_double_breakdown :
  Double.calculationBreakdown Cases.rates_alice Cases.days_week
  = Double.mkBreakdown 3 1 1 (Double.of_Z 2) (Double.of_Z 300)
      (Double.of_Z 40) (Double.of_Z 50) (Double.of_Z 30) (Double.of_Z 390)
      (Double.of_Z 360).
Proof. vm_compute. reflexivity. Qed.

(** Advances above the gross amount give a negative net amount. *)
Example double_advances_exceed_gross :
  let b := Double.calculationBreakdown Cases.rates_alice Cases.days_advance in
  Double.netAmount b = Double.of_Z (-50)
  ∧ Double.negative (Double.netAmount b) = true.
Proof. vm_compute. split; reflexivity. Qed.


(** C7. On an empty list of attendance records the wage calculation yields
    the breakdown whose day counts and amounts are all zero, for every
    employee. *)
Theorem calculationBreakdown_empty (employee : Employee.t) :
  WagesModule.calculationBreakdown employee [] = zero_breakdown.
Proof.
  unfold WagesModule.calculationBreakdown. simpl.
  rewrite Qc_of_Z_0, !Qcmult_0_l, !Qcplus_0_l, Qcminus_0_diag.
  reflexivity.
Qed.


(** The scenario of the specification: three days present, one half day,
    one absent, 2 overtime hours, an advance of 30. *)
Example scenario_breakdown :
  WagesModule.calculationBreakdown Scenario.alice Scenario.week
  = Scenario.breakdown360.
Proof. vm_compute. reflexivity. Qed.

(** Advances above the gross amount give a negative net amount. *)
Example advances_exceed_gross :
  WagesModule.netAmount
    (WagesModule.calculationBreakdown Scenario.alice
       [Scenario.record "a9" "2025-11-25" absent 0 50])
  = Scenario.amount (-50).
Proof. vm_compute. reflexivity. Qed.

Example scenario_calculated :
  Scenario.calculated.2 = Some WagesModule.msg_calc_ok
  ∧ WagesModule.breakdown Scenario.wages1 = Some Scenario.breakdown360
  ∧ (WageCalculation.net_amount <$> Database.wage_calculations Scenario.db1)
    = [Scenario.amount 360].
Proof. vm_compute. repeat split. Qed.

(** ** Marking a calculation as paid *)

Lemma markAsPaid_cases env db st calculationId :
  markAsPaid_outcome env db st calculationId
    (WagesModule.markAsPaid env db st calculationId).
Proof.
  unfold WagesModule.markAsPaid.
  destruct (WagesModule.confirm env) eqn:Hc; simpl; [|by constructor].
  destruct (WagesModule.update_fault env) eqn:Hu; [by constructor|].
  destruct (list_find _ _) as [[i c]|] eqn:Hf; [|by constructor].
  destruct (WagesModule.insert_fault env) eqn:Hi.
  - eapply paid_insert_failed; eauto.
  - destruct (Store.insert_payment _ _) as [db2|] eqn:Hins.
    + eapply paid_recorded; eauto.
    + eapply paid_insert_failed; eauto.
Qed.

Lemma insert_payment_Some row db db2 :
  Store.insert_payment row db = Some db2 →
  db2 = Database.mk (Database.employees db) (Database.attendance db)
          (Database.wage_calculations db) (Database.payments db ++ [row])
  ∧ (Payment.id row ∉ Payment.id <$> Database.payments db)
  ∧ Store.has_calculation db (Payment.wage_calculation_id row) = true
  ∧ Store.has_employee db (Payment.employee_id row) = true.
Proof.
  unfold Store.insert_payment. intros H.
  case_bool_decide; [done|].
  destruct (Store.has_calculation _ _); [|done].
  destruct (Store.has_employee _ _); [|done].
  simpl in H. by simplify_eq.
Qed.

Lemma list_find_listed (st : WagesModule.State) calculationId :
  listed st calculationId →
  ∃ i c, list_find (λ c, WageCalculation.id c = calculationId)
           (WagesModule.calculations st) = Some (i, c).
Proof.
  unfold listed. intros (c & Hid & Hc)%list_elem_of_fmap.
  destruct (list_find_elem_of (λ c, WageCalculation.id c = calculationId)
              (WagesModule.calculations st) c) as [[i c'] H]; [done..|].
  eauto.
Qed.

Lemma list_find_id (cs : list WageCalculation.t) calculationId i c :
  list_find (λ c, WageCalculation.id c = calculationId) cs = Some (i, c) →
  c ∈ cs ∧ WageCalculation.id c = calculationId.
Proof.
  intros (Hi & Hc & _)%list_find_Some. split; [|done].
  by eapply list_elem_of_lookup_2.
Qed.

Lemma payments_of_app db rows calculationId :
  filter (λ p, Payment.wage_calculation_id p = calculationId)
    (Database.payments db ++ rows)
  = payments_of db calculationId
    ++ filter (λ p, Payment.wage_calculation_id p = calculationId) rows.
Proof. unfold payments_of. by rewrite filter_app. Qed.

(** A run that reports success for a listed calculation appends exactly
    the row [payment_row] to the payments and flips the calculation. *)
Lemma markAsPaid_recorded env db st calculationId db' st' :
  WagesModule.markAsPaid env db st calculationId
  = (db', st', Some WagesModule.msg_paid_ok) →
  listed st calculationId →
  ∃ i calculation,
    list_find (λ c, WageCalculation.id c = calculationId)
      (WagesModule.calculations st) = Some (i, calculation)
    ∧ db' = Database.mk (Database.employees db) (Database.attendance db)
              ((λ c, if bool_decide (WageCalculation.id c = calculationId)
                     then Store.set_paid (WagesModule.update_now env) c else c)
                 <$> Database.wage_calculations db)
              (Database.payments db
                 ++ [WagesModule.payment_row env calculationId calculation])
    ∧ st' = WagesModule.fetchCalculations
              (WagesModule.paid_refresh_fault env) db' st.
Proof.
  intros Hrun Hlisted.
  destruct (list_find_listed _ _ Hlisted) as (i & c & Hfind).
  pose proof (markAsPaid_cases env db st calculationId) as Hcases.
  rewrite Hrun in Hcases.
  inversion Hcases as [| | | j c2 db2 _ _ Hf2 _ Hins | _ _ Hnone]; subst.
  - rewrite Hfind in Hf2. simplify_eq.
    apply insert_payment_Some in Hins as (-> & _).
    by eexists _, _.
  - congruence.
Qed.

Lemma update_paid_rows calculationId updated db c :
  c ∈ calculation_rows (Store.update_paid calculationId updated db) calculationId →
  WageCalculation.is_paid c = true.
Proof.
  unfold calculation_rows, Store.update_paid. simpl.
  intros [Hid (c0 & -> & _)%list_elem_of_fmap]%list_elem_of_filter.
  by case_bool_decide.
Qed.

Lemma update_paid_payments calculationId updated db :
  Database.payments (Store.update_paid calculationId updated db)
  = Database.payments db.
Proof. reflexivity. Qed.

(** C10. Whatever its arguments, a run of [markAsPaid] leaves the payments
    as they are or appends one payment, built from a calculation of the
    component's list, whose payment_method is 'cash', whose payment_date is
    the date of the clock at the insert and whose notes are the generated
    summary of the period; the handler has no parameter for any of them. *)
Theorem markAsPaid_payment_fields env db st calculationId :
  let db' := (WagesModule.markAsPaid env db st calculationId).1.1 in
  Database.payments db' = Database.payments db
  ∨ ∃ calculation p,
      calculation ∈ WagesModule.calculations st
      ∧ WageCalculation.id calculation = calculationId
      ∧ Database.payments db' = Database.payments db ++ [p]
      ∧ Payment.payment_method p = Some cash
      ∧ Payment.payment_date p = split_T_0 (WagesModule.insert_now env)
      ∧ Payment.notes p = Some (WagesModule.payment_notes calculation).
Proof.
  destruct (markAsPaid_cases env db st calculationId)
    as [| | | i c db2 _ _ Hfind _ Hins |]; simpl; auto.
  right. apply insert_payment_Some in Hins as (-> & _).
  apply list_find_id in Hfind as [Hc Hid].
  by exists c, (WagesModule.payment_row env calculationId c).
Qed.

(** C4. A run of [markAsPaid] that reports success, for a calculation that
    the component lists and whose listed copy agrees with the store, sets
    is_paid on the calculation and appends one payment for it whose amount
    is the calculation's net_amount as stored at that moment and whose
    payment_date is the date of the clock; no date can be supplied.  It
    holds for every such calculation, in particular for the unpaid ones. *)
Theorem markAsPaid_success env db st calculationId db' st' c :
  WagesModule.markAsPaid env db st calculationId
  = (db', st', Some WagesModule.msg_paid_ok) →
  listed st calculationId →
  in_sync db st →
  c ∈ Database.wage_calculations db →
  WageCalculation.id c = calculationId →
  Store.set_paid (WagesModule.update_now env) c ∈ Database.wage_calculations db'
  ∧ (∀ c', c' ∈ calculation_rows db' calculationId →
           WageCalculation.is_paid c' = true)
  ∧ ∃ p, Database.payments db' = Database.payments db ++ [p]
         ∧ Payment.wage_calculation_id p = calculationId
         ∧ Payment.employee_id p = WageCalculation.employee_id c
         ∧ Payment.amount p = WageCalculation.net_amount c
         ∧ Payment.payment_date p = split_T_0 (WagesModule.insert_now env).
Proof.
  intros Hrun Hlisted Hsync Hc Hid.
  destruct (markAsPaid_recorded _ _ _ _ _ _ Hrun Hlisted)
    as (i & c0 & Hfind & -> & _).
  apply list_find_id in Hfind as [Hc0 Hid0].
  destruct (Hsync c0 c Hc0 Hc) as (He & Hn & _); [congruence|].
  split; [|split].
  - simpl. apply list_elem_of_fmap. exists c. split; [|done].
    by rewrite bool_decide_eq_true_2.
  - intros c'. apply (update_paid_rows calculationId (WagesModule.update_now env) db).
  - eexists. split; [reflexivity|]. simpl. by rewrite He, Hn.
Qed.

(** C2, as the code has it.  [markAsPaid] does not look at is_paid: every
    run that reports success for a calculation of the component's list
    appends one more payment for it, so two such runs on the same
    calculation leave two more payments than there were. *)
Theorem markAsPaid_twice env1 env2 db st calculationId db1 st1 db2 st2 :
  WagesModule.markAsPaid env1 db st calculationId
  = (db1, st1, Some WagesModule.msg_paid_ok) →
  WagesModule.markAsPaid env2 db1 st1 calculationId
  = (db2, st2, Some WagesModule.msg_paid_ok) →
  listed st calculationId →
  listed st1 calculationId →
  length (payments_of db2 calculationId)
  = (length (payments_of db calculationId) + 2)%nat.
Proof.
  intros Hrun1 Hrun2 Hl Hl1.
  destruct (markAsPaid_recorded _ _ _ _ _ _ Hrun1 Hl) as (i & c & _ & -> & _).
  destruct (markAsPaid_recorded _ _ _ _ _ _ Hrun2 Hl1) as (j & d & _ & -> & _).
  unfold payments_of at 1. simpl.
  rewrite !filter_app, !filter_cons_True, !filter_nil, !length_app by done.
  unfold payments_of. simpl. lia.
Qed.

(** C3, as the code has it.  The two writes of [markAsPaid] are separate
    requests.  When a storage failure hits one of them, the run shows
    'Error marking as paid' and inserts no payment; the store is unchanged
    when the failure is in the update, but when it is in the insert the
    update has already been applied and stays: the calculation is left with
    is_paid set and no payment. *)
Theorem markAsPaid_storage_failure env db st calculationId :
  WagesModule.confirm env = true →
  listed st calculationId →
  WagesModule.update_fault env = true ∨ WagesModule.insert_fault env = true →
  WagesModule.markAsPaid env db st calculationId
  = (if WagesModule.update_fault env then db
     else Store.update_paid calculationId (WagesModule.update_now env) db,
     st, Some WagesModule.msg_paid_error)
  ∧ Database.payments (WagesModule.markAsPaid env db st calculationId).1.1
    = Database.payments db.
Proof.
  intros Hc Hl Hfault.
  destruct (list_find_listed _ _ Hl) as (i & c & Hfind).
  unfold WagesModule.markAsPaid. rewrite Hc, Hfind. simpl.
  destruct (WagesModule.update_fault env); [done|].
  destruct Hfault as [?| ->]; done.
Qed.

Example scenario_db1 :
  Database.wage_calculations Scenario.db1 = [Scenario.c1]
  ∧ WagesModule.calculations Scenario.wages1 = [Scenario.c1]
  ∧ Database.payments Scenario.db1 = [].
Proof. vm_compute. repeat split. Qed.

Lemma scenario_in_sync : in_sync Scenario.db1 Scenario.wages1.
Proof.
  destruct scenario_db1 as (Hdb & Hst & _).
  intros c' c. rewrite Hdb, Hst.
  intros ->%list_elem_of_singleton ->%list_elem_of_singleton _.
  by repeat split.
Defined.

Lemma markAsPaid_success_witness :
  let run := WagesModule.markAsPaid (Scenario.paid_env "p1" false false)
               Scenario.db1 Scenario.wages1 "c1" in
  Store.set_paid "2025-11-22T10:00:00.000Z" Scenario.c1
    ∈ Database.wage_calculations run.1.1
  ∧ (∀ c', c' ∈ calculation_rows run.1.1 "c1" →
           WageCalculation.is_paid c' = true)
  ∧ ∃ p, Database.payments run.1.1 = Database.payments Scenario.db1 ++ [p]
         ∧ Payment.wage_calculation_id p = "c1"
         ∧ Payment.employee_id p = "e1"
         ∧ Payment.amount p = Scenario.amount 360
         ∧ Payment.payment_date p = "2025-11-22".
Proof.
  intros run.
  apply (markAsPaid_success (Scenario.paid_env "p1" false false)
           Scenario.db1 Scenario.wages1 "c1" run.1.1 run.1.2 Scenario.c1).
  - vm_compute. reflexivity.
  - unfold listed. compute_done.
  - exact scenario_in_sync.
  - vm_compute. left.
  - reflexivity.
Defined.

(** C2, as stated, fails: after a first run whose refresh of the list
    failed the button is still shown, and the second run inserts a second
    payment for the same calculation. *)
Lemma markAsPaid_twice_two_payments :
  payments_of Scenario.db1 "c1" = []
  ∧ WagesModule.button_shown Scenario.wages1 "c1" = true
  ∧ Scenario.paid_once.2 = Some WagesModule.msg_paid_ok
  ∧ WagesModule.button_shown Scenario.paid_once.1.2 "c1" = true
  ∧ Scenario.paid_twice.2 = Some WagesModule.msg_paid_ok
  ∧ (Payment.id <$> payments_of Scenario.paid_twice.1.1 "c1") = ["p1"; "p2"]
  ∧ ¬ (length (payments_of Scenario.paid_twice.1.1 "c1") ≤ 1)%nat.
Proof.
  assert (length (payments_of Scenario.paid_twice.1.1 "c1") = 2%nat) as ->
    by (vm_compute; reflexivity).
  vm_compute. repeat split. lia.
Qed.

Lemma markAsPaid_twice_witness :
  length (payments_of Scenario.paid_twice.1.1 "c1")
  = (length (payments_of Scenario.db1 "c1") + 2)%nat.
Proof.
  apply (markAsPaid_twice (Scenario.paid_env "p1" false true)
           (Scenario.paid_env "p2" false false)
           Scenario.db1 Scenario.wages1 "c1"
           Scenario.paid_once.1.1 Scenario.paid_once.1.2
           Scenario.paid_twice.1.1 Scenario.paid_twice.1.2).
  - vm_compute. reflexivity.
  - vm_compute. reflexivity.
  - unfold listed. compute_done.
  - unfold listed. compute_done.
Defined.

(** C3, as stated, fails: when the insert of the payment fails, the run
    ends in an error with the calculation already flipped to paid and no
    payment for it. *)
Lemma markAsPaid_torn :
  (WageCalculation.is_paid <$> calculation_rows Scenario.db1 "c1") = [false]
  ∧ Scenario.paid_torn.2 = Some WagesModule.msg_paid_error
  ∧ (WageCalculation.is_paid <$> calculation_rows Scenario.paid_torn.1.1 "c1")
    = [true]
  ∧ payments_of Scenario.paid_torn.1.1 "c1" = []
  ∧ Database.wage_calculations Scenario.paid_torn.1.1
    ≠ Database.wage_calculations Scenario.db1.
Proof.
  vm_compute. repeat split. discriminate.
Qed.

Lemma markAsPaid_storage_failure_witness :
  WagesModule.markAsPaid (Scenario.paid_env "p1" true false)
    Scenario.db1 Scenario.wages1 "c1"
  = (Store.update_paid "c1" "2025-11-22T10:00:00.000Z" Scenario.db1,
     Scenario.wages1, Some WagesModule.msg_paid_error)
  ∧ Database.payments Scenario.paid_torn.1.1 = Database.payments Scenario.db1.
Proof.
  apply (markAsPaid_storage_failure (Scenario.paid_env "p1" true false)
           Scenario.db1 Scenario.wages1 "c1").
  - reflexivity.
  - unfold listed. compute_done.
  - right. reflexivity.
Defined.

(** ** Validation in [calculateWages] *)

Lemma falsy_true s : falsy s = true ↔ s = "".
Proof. unfold falsy. by rewrite bool_decide_eq_true. Qed.

Lemma selection_missing_guard (st : WagesModule.State) :
  falsy (WagesModule.selectedEmployee st) || falsy (WagesModule.startDate st)
  || falsy (WagesModule.endDate st) = true
  ↔ selection_missing st.
Proof.
  unfold selection_missing.
  rewrite !orb_true_iff, !falsy_true. tauto.
Qed.

Lemma leb_le s1 s2 : String.leb s1 s2 = true ↔ String.le s1 s2.
Proof. unfold String.le. by destruct (String.leb s1 s2). Qed.

(** No date lies in a range whose end is before its start. *)
Lemma inverted_range_empty lo hi d :
  str_gt lo hi = true → date_gte d lo = true → date_lte d hi = true → False.
Proof.
  unfold str_gt, date_gte, date_lte. intros Hgt Hlo%leb_le Hhi%leb_le.
  assert (String.le lo hi) as Hle%leb_le by (by etrans).
  revert Hgt Hle. unfold String.ltb, String.leb.
  rewrite (String.compare_antisym hi lo).
  by destruct (String.compare lo hi).
Qed.

Lemma attendance_in_range_inverted db eid lo hi :
  str_gt lo hi = true → Store.attendance_in_range db eid lo hi = [].
Proof.
  intros Hgt. unfold Store.attendance_in_range.
  induction (Database.attendance db) as [|r A IH]; [done|].
  rewrite filter_cons_False; [done|].
  intros (_ & Hlo & Hhi). by eapply inverted_range_empty.
Qed.

Lemma resolved_has_employee db eid employee :
  Store.single (Store.employees_by_id db eid) = Some employee →
  Store.has_employee db eid = true.
Proof.
  intros H%single_Some_elem. unfold Store.has_employee.
  apply bool_decide_eq_true. apply list_elem_of_fmap. exists employee.
  assert (employee ∈ Store.employees_by_id db eid) as Hin
    by (rewrite H; apply list_elem_of_here).
  by apply list_elem_of_filter in Hin as [-> Hin].
Qed.

(** Over an inverted range the breakdown is the zero breakdown. *)
Lemma inverted_range_breakdown db employee eid lo hi :
  str_gt lo hi = true →
  WagesModule.calculationBreakdown employee
    (Store.attendance_in_range db eid lo hi) = zero_breakdown.
Proof.
  intros ->%(attendance_in_range_inverted db eid).
  unfold WagesModule.calculationBreakdown, zero_breakdown. simpl.
  by rewrite Qc_of_Z_0, !Qcmult_0_l, !Qcplus_0_l, Qcminus_0_diag.
Qed.

(** C6, as the code has it.  [calculateWages] refuses a request, with a
    message and without touching the store, when the employee, the start
    date or the end date is not selected, and when the employee does not
    resolve.  It does not compare the two dates: when the end date is before
    the start date the range query selects no record, and, the employee
    resolving and the store accepting the insert, the run stores the
    all-zero breakdown and reports success. *)
Theorem calculateWages_validation env db st :
  (selection_missing st →
   WagesModule.calculateWages env db st = (db, st, Some WagesModule.msg_select))
  ∧ (¬ selection_missing st → employee_unresolved env db st →
     WagesModule.calculateWages env db st
     = (db, st, Some WagesModule.msg_not_found))
  ∧ (¬ selection_missing st → range_inverted st →
     ∀ employee,
       WagesModule.employee_fault env = false →
       Store.single (Store.employees_by_id db (WagesModule.selectedEmployee st))
       = Some employee →
       WagesModule.attendance_fault env = false →
       WagesModule.calc_insert_fault env = false →
       WagesModule.calc_uuid env
         ∉ (WageCalculation.id <$> Database.wage_calculations db) →
       let db' :=
         Database.mk (Database.employees db) (Database.attendance db)
           (Database.wage_calculations db
              ++ [WagesModule.wageCalculation env st zero_breakdown])
           (Database.payments db) in
       WagesModule.calculateWages env db st
       = (db',
          WagesModule.fetchCalculations (WagesModule.calc_refresh_fault env) db'
            (WagesModule.setBreakdown zero_breakdown st),
          Some WagesModule.msg_calc_ok)).
Proof.
  unfold WagesModule.calculateWages.
  destruct (falsy _ || falsy _ || falsy _) eqn:Hguard.
  - apply selection_missing_guard in Hguard.
    split; [done|]. split; intros []; done.
  - assert (¬ selection_missing st) as Hsel.
    { rewrite <-selection_missing_guard. by rewrite Hguard. }
    split; [done|]. split.
    + unfold employee_unresolved. intros _ [-> | ->]; [done|]. by destruct (WagesModule.employee_fault env).
    + intros _ Hinv employee -> Hsingle -> -> Hfresh. cbv zeta. rewrite Hsingle.
      rewrite (inverted_range_breakdown db employee _ _ _ Hinv).
      unfold Store.insert_wage_calculation.
      rewrite bool_decide_eq_false_2 by done.
      cbn [WageCalculation.employee_id WagesModule.wageCalculation].
      by rewrite (resolved_has_employee _ _ _ Hsingle).
Qed.

(** C6, as stated, fails: with the end date before the start date the run
    is not refused; it stores a calculation with the all-zero breakdown
    and reports success. *)
Lemma calculateWages_inverted_range :
  let run := WagesModule.calculateWages Scenario.calc_env Scenario.db0
               Scenario.wages_inverted in
  range_inverted Scenario.wages_inverted
  ∧ run.2 = Some WagesModule.msg_calc_ok
  ∧ WagesModule.breakdown run.1.2 = Some zero_breakdown
  ∧ Database.wage_calculations Scenario.db0 = []
  ∧ (WageCalculation.net_amount <$> Database.wage_calculations run.1.1)
    = [0%Qc].
Proof. vm_compute. repeat split. Qed.

(** ** Marking attendance *)

Section lists.
Context {A B : Type}.

Lemma NoDup_fmap_elem_eq (f : A → B) (l : list A) (x y : A) :
  NoDup (f <$> l) → x ∈ l → y ∈ l → f x = f y → x = y.
Proof.
  intros Hnd [i Hi]%list_elem_of_lookup [j Hj]%list_elem_of_lookup Hf.
  assert (i = j) as ->; [|congruence].
  apply (NoDup_lookup (f <$> l) i j (f x)); [done|..];
    rewrite list_lookup_fmap; [by rewrite Hi | by rewrite Hj, Hf].
Qed.


End lists.



Lemma by_key_elem db eid d r :
  r ∈ Store.attendance_by_key db eid d ↔
  r ∈ Database.attendance db
  ∧ Attendance.employee_id r = eid ∧ Attendance.date r = d.
Proof. unfold Store.attendance_by_key. rewrite list_elem_of_filter. tauto. Qed.


(** The insert branch of the upsert. *)
Lemma insert_new db eid d row uuid db_now :
  Store.attendance_by_key db eid d = [] →
  Store.has_employee db eid = true →
  uuid ∉ (Attendance.id <$> Database.attendance db) →
  Store.attendance_fits row = true →
  AttendanceInsert.employee_id row = eid →
  AttendanceInsert.date row = d →
  ∃ db' r,
    Store.insert_attendance uuid db_now row db = Some db'
    ∧ Store.attendance_by_key db' eid d = [r]
    ∧ r = Attendance.mk uuid eid d (AttendanceInsert.status row)
            (default 0%Qc (Store.round2 <$> AttendanceInsert.overtime_hours row))
            (default 0%Qc (Store.round2 <$> AttendanceInsert.advance_taken row))
            (AttendanceInsert.notes row) db_now db_now
    ∧ (Attendance.id <$> Database.attendance db')
      = (Attendance.id <$> Database.attendance db) ++ [uuid]
    ∧ Database.employees db' = Database.employees db.
Proof.
  intros Hkey Hemp Hfresh Hfits <- <-. unfold Store.insert_attendance.
  rewrite bool_decide_eq_false_2, Hemp, Hfits, Hkey by done. simpl.
  eexists _, _. split; [done|]. unfold Store.attendance_by_key. simpl.
  rewrite filter_app, filter_cons_True, filter_nil by done.
  fold (Store.attendance_by_key db (AttendanceInsert.employee_id row)
          (AttendanceInsert.date row)).
  rewrite Hkey, fmap_app. done.
Qed.



(** With numbers of at most two decimals the record holds the numbers of
    the form themselves. *)
Lemma reflects_carries st r : form_two_decimals st → reflects st r → carries st r.
Proof.
  intros [Ho Ha] (He & Hd & Hs & Hov & Hadv & Hn).
  rewrite round2_two_decimals in Hov, Hadv by done.
  by repeat split.
Qed.




Example scenario_form2_two_decimals : form_two_decimals Scenario.form2.
Proof.
  split; [exists 0%Z|exists 2500%Z]; apply Qc_is_canon; vm_compute; reflexivity.
Qed.

(** The record left by the two markings of the scenario. *)
Example scenario_attendance_twice :
  let run1 := AttendanceModule.handleSubmit (Scenario.att_env "a6")
                Scenario.db0 Scenario.form1 in
  let run2 := AttendanceModule.handleSubmit (Scenario.att_env "a7")
                run1.1.1 Scenario.form2 in
  Store.attendance_by_key run1.1.1 "e1" "2025-11-24"
  = [Attendance.mk "a6" "e1" "2025-11-24" present (Scenario.amount 1)
       (Scenario.amount 0) (Some "first")
       "2025-11-24T18:00:00.100Z" "2025-11-24T18:00:00.100Z"]
  ∧ Store.attendance_by_key run2.1.1 "e1" "2025-11-24"
    = [Attendance.mk "a6" "e1" "2025-11-24" half_day (Scenario.amount 0)
         (Scenario.amount 25) (Some "")
         "2025-11-24T18:00:00.100Z" "2025-11-24T18:00:00.000Z"].
Proof. vm_compute. split; reflexivity. Qed.

(** ** Ordered lists *)

Section ordering.
Context {A : Type} (col : A → string).

Lemma desc_transitive : Transitive (λ x y : A, String.le (col y) (col x)).
Proof. intros x y z Hxy Hyz. by etrans. Qed.

Lemma desc_total : Total (λ x y : A, String.le (col y) (col x)).
Proof. intros x y. destruct (total String.le (col x) (col y)); auto. Qed.

Lemma greatest_first_order_desc (rows : list A) :
  greatest_first col (Store.order_desc col rows).
Proof.
  apply (@StronglySorted_merge_sort _ _ _ desc_transitive desc_total).
Qed.

Lemma greatest_first_take (n : nat) (rows : list A) :
  greatest_first col rows → greatest_first col (take n rows).
Proof.
  unfold greatest_first. rewrite <-(take_drop n rows) at 1.
  apply StronglySorted_app_1_l.
Qed.

Lemma order_desc_take_all (n : nat) (rows : list A) :
  length rows ≤ n → take n (Store.order_desc col rows) ≡ₚ rows.
Proof.
  intros Hlen. rewrite take_ge; [apply merge_sort_Permutation|].
  unfold Store.order_desc. by rewrite merge_sort_Permutation.
Qed.

End ordering.

(** ** Payment reports *)

Section summaries.
Import ReportModule.

(** What [summaryMap] holds for an employee after the loop: nothing when
    the employee has no payment in the list, otherwise the sum and the
    number of the employee's payments. *)
Lemma summaryMap_lookup (paymentData : list Payment.t) (eid : string) :
  match summaryMap_of paymentData !! eid with
  | None => of_employee eid paymentData = []
  | Some s =>
      of_employee eid paymentData ≠ []
      ∧ total s = sum_Qc (Payment.amount <$> of_employee eid paymentData)
      ∧ count s = Z.of_nat (length (of_employee eid paymentData))
  end.
Proof.
  unfold summaryMap_of, of_employee.
  induction paymentData as [|p paymentData IH] using rev_ind.
  - simpl. by rewrite lookup_empty.
  - rewrite foldl_snoc, filter_app. unfold add_payment at 1.
    destruct (decide (Payment.employee_id p = eid)) as [<-|Hne].
    + rewrite lookup_insert_eq, filter_cons_True, filter_nil by done.
      rewrite fmap_app, sum_Qc_app, length_app. simpl.
      split; [by destruct (filter _ paymentData)|].
      destruct (foldl add_payment ∅ paymentData !! Payment.employee_id p)
        as [s|]; simpl.
      * destruct IH as (_ & -> & ->). split; [|lia].
        by rewrite Qcplus_0_r.
      * rewrite IH. simpl. split; [ring|done].
    + rewrite lookup_insert_ne, filter_cons_False, filter_nil, app_nil_r by done.
      apply IH.
Qed.

(** The object pushed for an employee holds the sum and the number of the
    employee's payments. *)
Lemma summary_of_spec (paymentData : list Payment.t) (emp : Employee.t) :
  let s := summary_of (summaryMap_of paymentData) emp in
  s_employee s = emp
  ∧ totalPayments s
    = sum_Qc (Payment.amount <$> of_employee (Employee.id emp) paymentData)
  ∧ paymentCount s
    = Z.of_nat (length (of_employee (Employee.id emp) paymentData)).
Proof.
  pose proof (summaryMap_lookup paymentData (Employee.id emp)) as H.
  unfold summary_of. simpl.
  destruct (summaryMap_of paymentData !! Employee.id emp) as [s|]; simpl.
  - destruct H as (_ & <- & <-). repeat split; by case_bool_decide.
  - by rewrite H.
Qed.

End summaries.

Section double_summaries.
Import Double.

Lemma double_sum_snoc (l : list spec_float) (x : spec_float) :
  Double.sum (l ++ [x]) = add (Double.sum l) x.
Proof. unfold Double.sum. by rewrite foldl_snoc. Qed.

(** What [summaryMap] holds for an employee after the loop: nothing when
    the employee has no payment in the list, otherwise the number of the
    employee's payments and their sum, added from the left in the order of
    the list. *)
Lemma double_summaryMap_lookup (paymentData : list PaymentRow) (eid : string) :
  match summaryMap_of paymentData !! eid with
  | None => Double.of_employee eid paymentData = []
  | Some s =>
      Double.of_employee eid paymentData ≠ []
      ∧ total s = Double.sum (amount <$> Double.of_employee eid paymentData)
      ∧ count s = Z.of_nat (length (Double.of_employee eid paymentData))
  end.
Proof.
  unfold summaryMap_of, Double.of_employee.
  induction paymentData as [|p paymentData IH] using rev_ind.
  - simpl. by rewrite lookup_empty.
  - rewrite foldl_snoc, filter_app. unfold add_payment at 1.
    destruct (decide (employee_id p = eid)) as [<-|Hne].
    + rewrite lookup_insert_eq, filter_cons_True, filter_nil by done.
      rewrite fmap_app, length_app.
      change (amount <$> [p]) with [amount p]. rewrite double_sum_snoc. simpl.
      split; [by destruct (filter _ paymentData)|].
      destruct (foldl add_payment ∅ paymentData !! employee_id p)
        as [s|]; simpl.
      * destruct IH as (_ & -> & ->). split; [done|lia].
      * rewrite IH. done.
    + rewrite lookup_insert_ne, filter_cons_False, filter_nil, app_nil_r by done.
      apply IH.
Qed.

(** The object pushed for an employee. *)
Lemma double_summary_of_spec (paymentData : list PaymentRow) (emp : Employee.t) :
  let s := summary_of (summaryMap_of paymentData) emp in
  s_employee s = emp
  ∧ totalPayments s
    = Double.or_zero
        (Some (Double.sum
                 (amount <$> Double.of_employee (Employee.id emp) paymentData)))
  ∧ paymentCount s
    = Z.of_nat (length (Double.of_employee (Employee.id emp) paymentData)).
Proof.
  pose proof (double_summaryMap_lookup paymentData (Employee.id emp)) as H.
  unfold summary_of. simpl.
  destruct (summaryMap_of paymentData !! Employee.id emp) as [s|]; simpl.
  - destruct H as (_ & <- & <-). repeat split; by case_bool_decide.
  - by rewrite H.
Qed.

Lemma double_filtered_summaries (paymentData : list PaymentRow)
    (emps : list Employee.t) :
  s_employee
    <$> filter (λ s, (paymentCount s > 0)%Z)
          (summary_of (summaryMap_of paymentData) <$> emps)
  = filter (λ e, Double.of_employee (Employee.id e) paymentData ≠ []) emps.
Proof.
  induction emps as [|emp emps IH]; [done|].
  rewrite fmap_cons, !filter_cons.
  destruct (double_summary_of_spec paymentData emp) as (He & _ & Hc).
  rewrite Hc.
  destruct (Double.of_employee (Employee.id emp) paymentData) eqn:Hof;
    simpl length; repeat case_decide; try lia; try done.
  by rewrite fmap_cons, He, IH.
Qed.

(** The payments of the summarized employees, employee by employee. *)
Lemma double_summarized_payments (paymentData : list PaymentRow)
    (emps : list Employee.t) :
  concat ((λ s, Double.of_employee (Employee.id (s_employee s)) paymentData)
            <$> filter (λ s, (paymentCount s > 0)%Z)
                  (summary_of (summaryMap_of paymentData) <$> emps))
  = concat ((λ e, Double.of_employee (Employee.id e) paymentData) <$> emps).
Proof.
  induction emps as [|emp emps IH]; [done|].
  rewrite !fmap_cons, filter_cons. simpl concat at 2. rewrite <-IH.
  destruct (double_summary_of_spec paymentData emp) as (He & _ & Hc).
  case_decide as Hpos; [by rewrite fmap_cons, He|].
  rewrite Hc in Hpos.
  by destruct (Double.of_employee (Employee.id emp) paymentData);
    simpl in *; [|lia].
Qed.

(** Grouping the payments by employee loses and repeats nothing when the
    employees have distinct ids and every payment belongs to one of them. *)
Lemma double_grouped_payments (paymentData : list PaymentRow)
    (emps : list Employee.t) :
  NoDup (Employee.id <$> emps) →
  concat ((λ e, Double.of_employee (Employee.id e) paymentData) <$> emps)
  ≡ₚ filter (λ p, employee_id p ∈ Employee.id <$> emps) paymentData.
Proof.
  induction emps as [|emp emps IH]; intros Hnd.
  - simpl. induction paymentData as [|p l IHl]; [done|].
    rewrite filter_cons_False; [done|]. apply not_elem_of_nil.
  - rewrite fmap_cons in Hnd. apply NoDup_cons in Hnd as [Hemp Hnd].
    rewrite fmap_cons. simpl concat. rewrite (IH Hnd). clear IH.
    unfold Double.of_employee.
    induction paymentData as [|p l IHl]; [done|].
    rewrite !filter_cons, fmap_cons.
    repeat case_decide; simpl;
      first [ by rewrite IHl
            | by rewrite <-Permutation_middle, IHl
            | exfalso;
              match goal with
              | H : ¬ (_ ∈ _ :: _) |- _ =>
                  apply H; apply elem_of_cons; by auto
              | H : _ = Employee.id emp, H' : _ ∈ _ <$> emps |- _ =>
                  apply Hemp; by rewrite <-H
              | H : _ ∈ _ :: _ |- _ =>
                  apply elem_of_cons in H as [?|?]; done
              end ].
Qed.

Lemma double_filter_all (paymentData : list PaymentRow) (ids : list string) :
  (∀ p, p ∈ paymentData → employee_id p ∈ ids) →
  filter (λ p, employee_id p ∈ ids) paymentData = paymentData.
Proof.
  induction paymentData as [|p l IH]; intros Hall; [done|].
  rewrite filter_cons_True by apply Hall, list_elem_of_here.
  rewrite IH; [done|]. intros q Hq. by apply Hall, list_elem_of_further.
Qed.

Lemma double_getTotalAmount_sum (payments : list PaymentRow) :
  getTotalAmount payments = Double.sum (amount <$> payments).
Proof.
  unfold getTotalAmount, Double.sum. generalize zero.
  induction payments as [|p l IH]; intros a; [done|]. simpl. apply IH.
Qed.

End double_summaries.

(** C9, as the code has it.  For every date range and payment set,
    [fetchEmployeeSummaries] never includes an employee whose payment
    count in the range is zero: each summary carries the number of the
    employee's payments in the range, which is positive.  The total of a
    summary is the sum of these payments, added in double precision from
    the left in the order of the store; [getTotalAmount] over the same
    range with no employee filter is the sum of the listed payments, added
    in double precision from the left in the order of the list, latest
    date first.  When the employees the component holds have distinct ids
    and every payment of the range belongs to one of them, the payments
    that enter the per-employee totals are, each once, the payments that
    enter the flat sum.  The sums themselves can differ, also then. *)
Theorem summaries_partition_double :
  (∀ (employees : list Employee.t) (rows : list Double.PaymentRow)
     (lo hi : string),
     let paymentData := Double.payments_in_range rows lo hi in
     let summaries := Double.fetchEmployeeSummaries employees rows lo hi in
     let payments := Double.fetchPayments rows "all" lo hi in
     (∀ s, s ∈ summaries →
           let mine := Double.of_employee (Employee.id (Double.s_employee s))
                         paymentData in
           (0 < Z.of_nat (length mine))%Z
           ∧ Double.paymentCount s = Z.of_nat (length mine)
           ∧ Double.totalPayments s
             = Double.or_zero (Some (Double.sum (Double.amount <$> mine))))
     ∧ Double.getTotalAmount payments
       = Double.sum (Double.amount <$> payments)
     ∧ payments ≡ₚ paymentData
     ∧ greatest_first Double.payment_date payments
     ∧ (NoDup (Employee.id <$> employees) →
        (∀ p, p ∈ paymentData →
              Double.employee_id p ∈ Employee.id <$> employees) →
        concat ((λ s, Double.of_employee (Employee.id (Double.s_employee s))
                        paymentData) <$> summaries)
        ≡ₚ payments))
  ∧ (∃ (employees : list Employee.t) (rows : list Double.PaymentRow)
       (lo hi : string),
       let paymentData := Double.payments_in_range rows lo hi in
       let summaries := Double.fetchEmployeeSummaries employees rows lo hi in
       let payments := Double.fetchPayments rows "all" lo hi in
       NoDup (Employee.id <$> employees)
       ∧ Forall (λ p, Double.employee_id p ∈ Employee.id <$> employees)
           paymentData
       ∧ Double.sum (Double.totalPayments <$> summaries)
         ≠ Double.getTotalAmount payments).
Proof.
  split.
  - intros employees rows lo hi paymentData summaries payments.
    assert (payments ≡ₚ paymentData) as Hperm.
    { unfold payments, Double.fetchPayments, Store.order_desc. simpl.
      apply merge_sort_Permutation. }
    split_and!.
    + intros s [Hpos (emp & -> & _)%list_elem_of_fmap]%list_elem_of_filter mine.
      subst mine.
      destruct (double_summary_of_spec paymentData emp) as (He & Ht & Hc).
      fold paymentData in Hpos. rewrite Hc in Hpos.
      fold paymentData. rewrite He, Hc, Ht. split_and!; [lia|done|done].
    + apply double_getTotalAmount_sum.
    + done.
    + apply greatest_first_order_desc.
    + intros Hnd Hall. rewrite Hperm.
      unfold summaries, Double.fetchEmployeeSummaries.
      fold paymentData. cbv zeta.
      rewrite double_summarized_payments, double_grouped_payments by done.
      by rewrite double_filter_all.
  - exists [Scenario.alice], Cases.payments_cents, "2025-11-01", "2025-11-30".
    cbv zeta. split_and!.
    + compute_done.
    + compute_done.
    + vm_compute. discriminate.
Qed.

(** C9, as stated, fails: the per-employee totals need not add up to the
    flat sum.  Three payments of 360.10, 40.30 and 75.15 to one employee,
    stored in the order of their dates, give a summary total of
    475.55000000000007 (added in the order of the store) and a flat sum of
    475.55 (added latest first).  And a component that holds no employee
    yet has no summary at all for the same payments. *)
Lemma summaries_total_differs :
  let summaries :=
    Double.fetchEmployeeSummaries [Scenario.alice] Cases.payments_cents
      "2025-11-01" "2025-11-30" in
  let payments :=
    Double.fetchPayments Cases.payments_cents "all" "2025-11-01" "2025-11-30" in
  (Double.totalPayments <$> summaries)
  = [S754_finite false 8365964073422030 (-44)]
  ∧ Double.getTotalAmount payments = Double.decimal 47555 100
  ∧ Double.getTotalAmount payments = S754_finite false 8365964073422029 (-44)
  ∧ ¬ (Double.exact (Double.sum (Double.totalPayments <$> summaries))
       == Double.exact (Double.getTotalAmount payments))%Q
  ∧ Double.fetchEmployeeSummaries [] Cases.payments_cents
      "2025-11-01" "2025-11-30" = [].
Proof.
  cbv zeta. split_and!.
  - vm_compute. reflexivity.
  - vm_compute. reflexivity.
  - vm_compute. reflexivity.
  - intros H. vm_compute in H. discriminate.
  - reflexivity.
Qed.

(** On whole amounts the double sums are exact: the month of the scenario
    gives totals of 400 and 100 and a flat sum of 500. *)
Example scenario_double_month :
  let summaries :=
    Double.fetchEmployeeSummaries [Scenario.alice; Scenario.bob]
      Cases.payments_month "2025-11-01" "2025-11-30" in
  let payments :=
    Double.fetchPayments Cases.payments_month "all" "2025-11-01" "2025-11-30" in
  ((λ s, (Employee.name (Double.s_employee s), Double.totalPayments s,
          Double.paymentCount s)) <$> summaries)
  = [("Alice", Double.of_Z 400, 2%Z); ("Bob", Double.of_Z 100, 1%Z)]
  ∧ Double.getTotalAmount payments = Double.of_Z 500.
Proof. vm_compute. split; reflexivity. Qed.

Lemma scenario_db_month_constraints : Constraints.holds Scenario.db_month.
Proof. constructor; compute_done. Qed.

(** The month of the scenario: two summaries, by name, and a total of 500;
    the payment of December is outside the range. *)
Example scenario_month :
  let st1 := ReportModule.fetchEmployees false Scenario.db_month
               Scenario.report0 in
  let st2 := ReportModule.fetchPayments false Scenario.db_month st1 in
  let st3 := ReportModule.fetchEmployeeSummaries false Scenario.db_month st2 in
  ((λ s, (Employee.name (ReportModule.s_employee s),
          ReportModule.totalPayments s, ReportModule.paymentCount s,
          ReportModule.lastPaymentDate s))
     <$> ReportModule.employeeSummaries st3)
  = [("Alice", Scenario.amount 400, 2%Z, Some "2025-11-24");
     ("Bob", Scenario.amount 100, 1%Z, Some "2025-11-23")]
  ∧ ReportModule.getTotalAmount st2 = Scenario.amount 500
  ∧ (Payment.id ∘ ReportModule.payment <$> ReportModule.payments st2)
    = ["p3"; "p2"; "p1"].
Proof. vm_compute. repeat split. Qed.

(** [fetchEmployeeSummaries] reads the employees from the component's
    state: run before the employees are loaded, it yields no summary,
    whatever the payments. *)
Example summaries_before_employees :
  let st2 := ReportModule.fetchPayments false Scenario.db_month
               Scenario.report0 in
  let st3 := ReportModule.fetchEmployeeSummaries false Scenario.db_month st2 in
  ReportModule.employeeSummaries st3 = []
  ∧ ReportModule.getTotalAmount st2 = Scenario.amount 500.
Proof. vm_compute. split; reflexivity. Qed.

(** ** The component's list against the store *)

Lemma order_desc_elem {A} (col : A → string) (rows : list A) (x : A) :
  x ∈ Store.order_desc col rows ↔ x ∈ rows.
Proof. unfold Store.order_desc. by rewrite merge_sort_Permutation. Qed.

Lemma fetchCalculations_elem db st c :
  c ∈ WagesModule.calculations (WagesModule.fetchCalculations false db st) →
  c ∈ Database.wage_calculations db.
Proof.
  unfold WagesModule.fetchCalculations. simpl.
  intros Hc%(subseteq_take 20)%order_desc_elem.
  destruct (falsy _); [done|]. by apply list_elem_of_filter in Hc as [_ ?].
Qed.

(** A list fetched from a store with distinct ids agrees with that store. *)
Lemma in_sync_fetch db st :
  NoDup (WageCalculation.id <$> Database.wage_calculations db) →
  in_sync db (WagesModule.fetchCalculations false db st).
Proof.
  intros Hpk c' c Hc'%fetchCalculations_elem Hc Hid.
  by rewrite (NoDup_fmap_elem_eq WageCalculation.id _ c' c Hpk Hc' Hc Hid).
Qed.

Lemma update_paid_ids calculationId updated db :
  (WageCalculation.id <$> Database.wage_calculations
                            (Store.update_paid calculationId updated db))
  = (WageCalculation.id <$> Database.wage_calculations db).
Proof.
  unfold Store.update_paid. simpl. rewrite <-list_fmap_compose.
  apply list_fmap_ext. intros i c _. simpl. by case_bool_decide.
Qed.

Lemma in_sync_update_paid calculationId updated db st :
  in_sync db st → in_sync (Store.update_paid calculationId updated db) st.
Proof.
  intros Hsync c' c Hc'. unfold Store.update_paid. simpl.
  intros (c0 & -> & Hc0)%list_elem_of_fmap Hid.
  case_bool_decide; [|by apply Hsync]. by apply (Hsync c' c0).
Qed.

Lemma in_sync_refresh fault db st :
  NoDup (WageCalculation.id <$> Database.wage_calculations db) →
  in_sync db st → in_sync db (WagesModule.fetchCalculations fault db st).
Proof. intros Hpk Hsync. destruct fault; [done|by apply in_sync_fetch]. Qed.

(** X2. [markAsPaid] keeps the component's list in agreement with the
    store: afterwards every listed calculation still has the employee, net
    amount and period of the stored row with its id. *)
Lemma in_sync_markAsPaid env db st calculationId :
  NoDup (WageCalculation.id <$> Database.wage_calculations db) →
  in_sync db st →
  let run := WagesModule.markAsPaid env db st calculationId in
  in_sync run.1.1 run.1.2.
Proof.
  intros Hpk Hsync.
  pose proof (in_sync_update_paid calculationId (WagesModule.update_now env)
                db st Hsync) as Hsync1.
  pose proof (update_paid_ids calculationId (WagesModule.update_now env) db)
    as Hids.
  destruct (markAsPaid_cases env db st calculationId)
    as [| | | i c db2 _ _ _ _ Hins |]; simpl; try done.
  - apply insert_payment_Some in Hins as (-> & _).
    apply in_sync_refresh; [|exact Hsync1].
    cbn [Database.wage_calculations]. by rewrite Hids.
  - apply in_sync_refresh; [by rewrite Hids|exact Hsync1].
Qed.

(** X3. Once a run has succeeded and the list has been fetched again, the
    button of the calculation is not rendered any more. *)
Lemma markAsPaid_hides_button env db st calculationId db' st' :
  WagesModule.markAsPaid env db st calculationId
  = (db', st', Some WagesModule.msg_paid_ok) →
  WagesModule.paid_refresh_fault env = false →
  WagesModule.button_shown st' calculationId = false.
Proof.
  intros Hrun Hrefresh.
  pose proof (markAsPaid_cases env db st calculationId) as Hcases.
  rewrite Hrun in Hcases.
  assert (∀ c, c ∈ WagesModule.calculations st' →
               WageCalculation.id c = calculationId →
               WageCalculation.is_paid c = true) as Hpaid.
  { inversion Hcases as [| | | i c0 db2 _ _ _ _ Hins | _ _ _]; subst;
      rewrite Hrefresh; intros c Hc%fetchCalculations_elem Hid.
    - apply insert_payment_Some in Hins as (-> & _).
      apply (update_paid_rows calculationId (WagesModule.update_now env) db).
      apply list_elem_of_filter. split; [done|exact Hc].
    - apply (update_paid_rows calculationId (WagesModule.update_now env) db).
      apply list_elem_of_filter. split; [done|exact Hc]. }
  unfold WagesModule.button_shown. apply bool_decide_eq_false.
  rewrite Exists_exists. intros (c & Hc & Hid & Hunpaid).
  rewrite (Hpaid c Hc Hid) in Hunpaid. done.
Qed.

(** ** The writes of the store keep its constraints *)

Section constraints.
Import Constraints.

Lemma NoDup_snoc_fresh {A} (l : list A) (x : A) :
  NoDup l → x ∉ l → NoDup (l ++ [x]).
Proof.
  intros Hl Hx. apply NoDup_app. repeat split; [done| |apply NoDup_singleton].
  by intros y Hy ->%list_elem_of_singleton.
Qed.

Lemma Forall_snoc {A} (P : A → Prop) (l : list A) (x : A) :
  Forall P l → P x → Forall P (l ++ [x]).
Proof. intros Hl Hx. apply Forall_app. split; [done|by apply Forall_singleton]. Qed.

Lemma holds_insert_payment row db db' :
  holds db → Store.insert_payment row db = Some db' → holds db'.
Proof.
  intros Hdb (-> & Hfresh & Hcalc & Hemp)%insert_payment_Some.
  constructor; simpl; try apply Hdb.
  - rewrite fmap_app. by apply NoDup_snoc_fresh; [apply Hdb|].
  - by apply Forall_snoc; [apply (payments_fk_calculation db Hdb)|].
  - by apply Forall_snoc; [apply (payments_fk_employee db Hdb)|].
Qed.

Lemma holds_update_paid calculationId updated db :
  holds db → holds (Store.update_paid calculationId updated db).
Proof.
  intros Hdb.
  pose proof (update_paid_ids calculationId updated db) as Hids.
  constructor; try apply Hdb.
  - rewrite Hids. apply Hdb.
  - unfold Store.update_paid. simpl. apply Forall_fmap.
    eapply Forall_impl; [apply (calculations_fk db Hdb)|]. intros c Hc. simpl.
    by case_bool_decide.
  - unfold Store.has_calculation. rewrite Hids.
    apply (payments_fk_calculation db Hdb).
Qed.

Lemma holds_insert_wage_calculation row db db' :
  holds db → Store.insert_wage_calculation row db = Some db' → holds db'.
Proof.
  intros Hdb. unfold Store.insert_wage_calculation.
  case_bool_decide as Hfresh; [done|].
  destruct (Store.has_employee db (WageCalculation.employee_id row)) eqn:Hemp;
    [|done].
  destruct (Store.calculation_fits row); [|done].
  simpl. intros [= <-]. constructor; simpl; try apply Hdb.
  - rewrite fmap_app. by apply NoDup_snoc_fresh; [apply Hdb|].
  - by apply Forall_snoc; [apply (calculations_fk db Hdb)|].
  - eapply Forall_impl; [apply (payments_fk_calculation db Hdb)|].
    intros p. unfold Store.has_calculation.
    rewrite !bool_decide_eq_true. cbn [Database.wage_calculations].
    rewrite fmap_app, elem_of_app. tauto.
Qed.

Lemma by_key_nil_fresh (l : list Attendance.t) eid d :
  filter (λ r, Attendance.employee_id r = eid ∧ Attendance.date r = d) l = [] →
  (eid, d) ∉ (attendance_key <$> l).
Proof.
  intros Hnil (r & Hkey & Hr)%list_elem_of_fmap.
  assert (r ∈ filter (λ r, Attendance.employee_id r = eid
                           ∧ Attendance.date r = d) l) as Hin.
  { apply list_elem_of_filter. split; [|done].
    unfold attendance_key in Hkey. by simplify_eq. }
  rewrite Hnil in Hin. by apply not_elem_of_nil in Hin.
Qed.

Lemma holds_insert_attendance uuid db_now row db db' :
  holds db → Store.insert_attendance uuid db_now row db = Some db' → holds db'.
Proof.
  intros Hdb. unfold Store.insert_attendance.
  case_bool_decide as Hfresh; [done|].
  destruct (Store.has_employee db (AttendanceInsert.employee_id row)) eqn:Hemp;
    [|done].
  destruct (Store.attendance_fits row); [|done].
  simpl. destruct (Store.attendance_by_key _ _ _) eqn:Hkey; [|done].
  intros [= <-]. constructor; simpl; try apply Hdb.
  - rewrite fmap_app. by apply NoDup_snoc_fresh; [apply Hdb|].
  - rewrite fmap_app. apply NoDup_snoc_fresh; [apply Hdb|].
    by apply by_key_nil_fresh.
  - by apply Forall_snoc; [apply (attendance_fk db Hdb)|].
Qed.

Lemma holds_update_attendance aid row updated db db' :
  holds db → Store.update_attendance aid row updated db = Some db' → holds db'.
Proof.
  intros Hdb. unfold Store.update_attendance.
  case_bool_decide as Haid; [|by intros [= <-]].
  destruct (Store.has_employee db (AttendanceInsert.employee_id row)) eqn:Hemp;
    [|done].
  destruct (Store.attendance_fits row); [|done].
  simpl. destruct (forallb _ _) eqn:Hall; [|done].
  intros [= <-].
  set (f := λ r, if bool_decide (Attendance.id r = aid)
                 then Store.set_attendance row updated r else r).
  assert (∀ r, Attendance.id (f r) = Attendance.id r) as Hid
    by (intros r; unfold f; by case_bool_decide).
  constructor; simpl; try apply Hdb.
  - rewrite <-list_fmap_compose.
    rewrite (list_fmap_ext (Attendance.id ∘ f) Attendance.id
               (Database.attendance db)) by (intros i r _; apply Hid).
    apply Hdb.
  - apply NoDup_alt. intros i j k.
    rewrite !list_lookup_fmap.
    destruct (Database.attendance db !! i) as [ri|] eqn:Hi; [|done].
    destruct (Database.attendance db !! j) as [rj|] eqn:Hj; [|done].
    simpl. intros [= Hki] [= Hkj].
    assert (∀ r r', r ∈ Database.attendance db → Attendance.id r' = aid →
                    attendance_key r = attendance_key (f r') →
                    Attendance.id r = aid) as Hsame.
    { intros r r' Hr Hr'. unfold f. rewrite bool_decide_eq_true_2 by done.
      unfold attendance_key. simpl. intros [= He Hd].
      rewrite forallb_forall in Hall.
      eapply bool_decide_eq_true_1, Hall, list_elem_of_In, by_key_elem. done. }
    pose proof (list_elem_of_lookup_2 _ _ _ Hi) as Hri.
    pose proof (list_elem_of_lookup_2 _ _ _ Hj) as Hrj.
    destruct (decide (Attendance.id ri = aid)) as [Hia|Hia];
      destruct (decide (Attendance.id rj = aid)) as [Hja|Hja].
    + apply (NoDup_lookup _ i j aid (attendance_pk db Hdb));
        rewrite list_lookup_fmap; [by rewrite Hi, <-Hia|by rewrite Hj, <-Hja].
    + exfalso. apply Hja, (Hsame rj ri); [done..|].
      rewrite Hki. rewrite <-Hkj. unfold f at 1.
      by rewrite bool_decide_eq_false_2.
    + exfalso. apply Hia, (Hsame ri rj); [done..|].
      rewrite Hkj. rewrite <-Hki. unfold f at 1.
      by rewrite bool_decide_eq_false_2.
    + apply (NoDup_lookup _ i j k (attendance_unique db Hdb));
        rewrite list_lookup_fmap.
      * rewrite Hi. simpl. rewrite <-Hki. unfold f.
        by rewrite bool_decide_eq_false_2.
      * rewrite Hj. simpl. rewrite <-Hkj. unfold f.
        by rewrite bool_decide_eq_false_2.
  - apply Forall_fmap. eapply Forall_impl; [apply (attendance_fk db Hdb)|].
    intros r Hr. unfold compose, f. case_bool_decide; [exact Hemp|exact Hr].
Qed.

End constraints.

(** ** The handlers keep the constraints of the store *)

Lemma holds_markAsPaid env db st calculationId :
  Constraints.holds db →
  Constraints.holds (WagesModule.markAsPaid env db st calculationId).1.1.
Proof.
  intros Hdb.
  pose proof (holds_update_paid calculationId (WagesModule.update_now env)
                db Hdb) as Hdb1.
  destruct (markAsPaid_cases env db st calculationId)
    as [| | | i c db2 _ _ _ _ Hins |]; simpl; try done.
  by eapply holds_insert_payment.
Qed.

Lemma holds_calculateWages env db st :
  Constraints.holds db →
  Constraints.holds (WagesModule.calculateWages env db st).1.1.
Proof.
  intros Hdb. unfold WagesModule.calculateWages.
  destruct (falsy _ || falsy _ || falsy _); [done|].
  destruct (if WagesModule.employee_fault env then _ else _); [|done].
  destruct (WagesModule.attendance_fault env); [done|].
  destruct (WagesModule.calc_insert_fault env); [done|].
  destruct (Store.insert_wage_calculation _ _) eqn:Hins; [|done].
  by eapply holds_insert_wage_calculation.
Qed.

Lemma holds_handleSubmit env db st :
  Constraints.holds db →
  Constraints.holds (AttendanceModule.handleSubmit env db st).1.1.
Proof.
  intros Hdb. unfold AttendanceModule.handleSubmit.
  destruct (falsy _ || falsy _); [done|].
  destruct (AttendanceModule.write_fault env); [done|].
  destruct (if AttendanceModule.select_fault env then _ else _).
  - destruct (Store.update_attendance _ _ _ _) eqn:Hup; [|done].
    by eapply holds_update_attendance.
  - destruct (Store.insert_attendance _ _ _ _) eqn:Hins; [|done].
    by eapply holds_insert_attendance.
Qed.

(** [calculateWages] keeps the list in agreement with the store, when its
    refresh of the list succeeds. *)
Lemma in_sync_calculateWages env db st :
  Constraints.holds db →
  in_sync db st →
  WagesModule.calc_refresh_fault env = false →
  let run := WagesModule.calculateWages env db st in
  in_sync run.1.1 run.1.2.
Proof.
  intros Hdb Hsync Hrefresh run.
  pose proof (holds_calculateWages env db st Hdb) as Hdb'.
  subst run. revert Hdb'. unfold WagesModule.calculateWages.
  destruct (falsy _ || falsy _ || falsy _); [done|].
  destruct (if WagesModule.employee_fault env then _ else _); [|done].
  destruct (WagesModule.attendance_fault env); [done|].
  destruct (if WagesModule.calc_insert_fault env then _ else _);
    [|intros _; exact Hsync].
  rewrite Hrefresh. cbn [fst snd]. intros Hdb'.
  apply in_sync_fetch, Hdb'.
Qed.

(** * Further properties of the handlers *)

(** ** [calculateWages]: what a run changes *)

(** A run that reports success has appended the row of the breakdown and
    touched nothing else. *)
Lemma calculateWages_ok_inv env db st db' st' :
  WagesModule.calculateWages env db st
  = (db', st', Some WagesModule.msg_calc_ok) →
  ∃ employee,
    Store.single (Store.employees_by_id db (WagesModule.selectedEmployee st))
    = Some employee
    ∧ db' = Database.mk (Database.employees db) (Database.attendance db)
              (Database.wage_calculations db
                 ++ [Store.round_calculation
                       (WagesModule.wageCalculation env st
                          (WagesModule.calculationBreakdown employee
                             (Store.attendance_in_range db
                                (WagesModule.selectedEmployee st)
                                (WagesModule.startDate st)
                                (WagesModule.endDate st))))])
              (Database.payments db)
    ∧ WagesModule.calc_uuid env
      ∉ (WageCalculation.id <$> Database.wage_calculations db).
Proof.
  unfold WagesModule.calculateWages.
  destruct (falsy _ || falsy _ || falsy _); [done|].
  destruct (WagesModule.employee_fault env); [done|].
  destruct (Store.single _) as [employee|] eqn:Hsingle; [|done].
  destruct (WagesModule.attendance_fault env); [done|].
  destruct (WagesModule.calc_insert_fault env); [done|].
  unfold Store.insert_wage_calculation.
  case_bool_decide as Hfresh; [done|].
  destruct (Store.has_employee _ _); [|done].
  destruct (Store.calculation_fits _); [|done].
  simpl. intros [= <- _]. by exists employee.
Qed.

(** A run that does not report success leaves the store as it was. *)
Lemma calculateWages_not_ok env db st :
  (WagesModule.calculateWages env db st).2 ≠ Some WagesModule.msg_calc_ok →
  (WagesModule.calculateWages env db st).1.1 = db.
Proof.
  unfold WagesModule.calculateWages.
  destruct (falsy _ || falsy _ || falsy _); [done|].
  destruct (if WagesModule.employee_fault env then _ else _); [|done].
  destruct (WagesModule.attendance_fault env); [done|].
  by destruct (if WagesModule.calc_insert_fault env then _ else _).
Qed.

Lemma calculateWages_selection env db st :
  let st' := (WagesModule.calculateWages env db st).1.2 in
  WagesModule.selectedEmployee st' = WagesModule.selectedEmployee st
  ∧ WagesModule.periodType st' = WagesModule.periodType st
  ∧ WagesModule.startDate st' = WagesModule.startDate st
  ∧ WagesModule.endDate st' = WagesModule.endDate st.
Proof.
  unfold WagesModule.calculateWages.
  destruct (falsy _ || falsy _ || falsy _); [done|].
  destruct (if WagesModule.employee_fault env then _ else _); [|done].
  destruct (WagesModule.attendance_fault env); [done|].
  destruct (if WagesModule.calc_insert_fault env then _ else _); [|done].
  by destruct (WagesModule.calc_refresh_fault env).
Qed.

(** X4. Whatever its outcome, [calculateWages] leaves the employees, the
    attendance records, the payments and the stored calculations as they
    are, except that a run reporting success appends one unpaid
    calculation, for the selected employee and period; any other outcome
    leaves the store untouched.  The selection of the form is never
    changed. *)
Theorem calculateWages_frame env db st :
  let run := WagesModule.calculateWages env db st in
  Database.employees run.1.1 = Database.employees db
  ∧ Database.attendance run.1.1 = Database.attendance db
  ∧ Database.payments run.1.1 = Database.payments db
  ∧ (if bool_decide (run.2 = Some WagesModule.msg_calc_ok)
     then ∃ c, Database.wage_calculations run.1.1
               = Database.wage_calculations db ++ [c]
               ∧ WageCalculation.is_paid c = false
               ∧ WageCalculation.employee_id c = WagesModule.selectedEmployee st
               ∧ WageCalculation.period_start c = WagesModule.startDate st
               ∧ WageCalculation.period_end c = WagesModule.endDate st
               ∧ WageCalculation.period_type c = WagesModule.periodType st
     else run.1.1 = db)
  ∧ WagesModule.selectedEmployee run.1.2 = WagesModule.selectedEmployee st
  ∧ WagesModule.startDate run.1.2 = WagesModule.startDate st
  ∧ WagesModule.endDate run.1.2 = WagesModule.endDate st.
Proof.
  intros run. subst run.
  destruct (calculateWages_selection env db st) as (Hs & _ & Hlo & Hhi).
  case_bool_decide as Hok.
  - destruct (WagesModule.calculateWages env db st)
      as [[db' st'] alert] eqn:Hrun.
    simpl in *. subst alert.
    apply calculateWages_ok_inv in Hrun as (employee & _ & -> & _).
    simpl. repeat split; try done. by eexists.
  - rewrite (calculateWages_not_ok env db st Hok). by repeat split.
Qed.

(** X5. [calculateWages] does not look for an earlier calculation of the
    same period: two runs reporting success for the same employee and
    dates append two calculations, with different ids and the same counts
    and amounts. *)
Theorem calculateWages_repeated env1 env2 db st st2 db1 st1 db2 st2' :
  WagesModule.calculateWages env1 db st
  = (db1, st1, Some WagesModule.msg_calc_ok) →
  WagesModule.calculateWages env2 db1 st2
  = (db2, st2', Some WagesModule.msg_calc_ok) →
  WagesModule.selectedEmployee st2 = WagesModule.selectedEmployee st →
  WagesModule.startDate st2 = WagesModule.startDate st →
  WagesModule.endDate st2 = WagesModule.endDate st →
  ∃ c1 c2,
    Database.wage_calculations db2 = Database.wage_calculations db ++ [c1; c2]
    ∧ WageCalculation.id c1 ≠ WageCalculation.id c2
    ∧ row_breakdown c1 = row_breakdown c2
    ∧ WageCalculation.is_paid c1 = false
    ∧ WageCalculation.is_paid c2 = false.
Proof.
  intros (e1 & Hs1 & -> & Hf1)%calculateWages_ok_inv
         (e2 & Hs2 & -> & Hf2)%calculateWages_ok_inv He Hlo Hhi.
  unfold Store.employees_by_id in Hs2. simpl in Hs2.
  rewrite He in Hs2. unfold Store.employees_by_id in Hs1.
  rewrite Hs1 in Hs2. injection Hs2 as <-.
  eexists _, _. split; [simpl; rewrite <-app_assoc; reflexivity|].
  unfold Store.attendance_in_range. simpl. rewrite He, Hlo, Hhi.
  repeat split. intros Hid. apply Hf2. simpl in *.
  rewrite fmap_app, elem_of_app. right. rewrite <-Hid. apply list_elem_of_here.
Qed.


Lemma calculateWages_repeated_witness :
  ∃ c1 c2,
    Database.wage_calculations
      (WagesModule.calculateWages Cases.calc_env2 Scenario.db1
         Scenario.wages1).1.1
    = Database.wage_calculations Scenario.db0 ++ [c1; c2]
    ∧ WageCalculation.id c1 ≠ WageCalculation.id c2
    ∧ row_breakdown c1 = row_breakdown c2
    ∧ WageCalculation.is_paid c1 = false
    ∧ WageCalculation.is_paid c2 = false.
Proof.
  apply (calculateWages_repeated Scenario.calc_env Cases.calc_env2
           Scenario.db0 Scenario.wages0 Scenario.wages1
           Scenario.db1 Scenario.wages1 _
           (WagesModule.calculateWages Cases.calc_env2 Scenario.db1
              Scenario.wages1).1.2);
    vm_compute; reflexivity.
Defined.

(** ** [markAsPaid]: what a run changes *)

Lemma update_paid_Forall2 calculationId updated db :
  Forall2 (λ c c', same_but_paid c c'
                   ∧ (WageCalculation.id c ≠ calculationId → c' = c)
                   ∧ (WageCalculation.id c = calculationId →
                      WageCalculation.is_paid c' = true)
                   ∧ (WageCalculation.is_paid c = true →
                      WageCalculation.is_paid c' = true))
    (Database.wage_calculations db)
    (Database.wage_calculations (Store.update_paid calculationId updated db)).
Proof.
  unfold Store.update_paid. simpl. apply Forall2_fmap_r, Forall_Forall2_diag.
  apply Forall_forall. intros c _. unfold compose.
  case_bool_decide; unfold same_but_paid; by repeat split.
Qed.

Lemma Forall2_same_but_paid (cs : list WageCalculation.t) calculationId :
  Forall2 (λ c c', same_but_paid c c'
                   ∧ (WageCalculation.id c ≠ calculationId → c' = c)
                   ∧ (WageCalculation.is_paid c = true →
                      WageCalculation.is_paid c' = true))
    cs cs.
Proof. apply Forall_Forall2_diag, Forall_forall. by intros c _. Qed.

(** X6. Whatever its outcome, [markAsPaid] leaves the employees and the
    attendance records as they are, keeps every payment there was, and
    keeps every stored calculation in place with its id, employee,
    period, counts and amounts: only is_paid and updated_at can change,
    only on rows with the given id, and is_paid never goes back to
    false. *)
Theorem markAsPaid_frame env db st calculationId :
  let run := WagesModule.markAsPaid env db st calculationId in
  Database.employees run.1.1 = Database.employees db
  ∧ Database.attendance run.1.1 = Database.attendance db
  ∧ Database.payments db `prefix_of` Database.payments run.1.1
  ∧ Forall2 (λ c c', same_but_paid c c'
                     ∧ (WageCalculation.id c ≠ calculationId → c' = c)
                     ∧ (WageCalculation.is_paid c = true →
                        WageCalculation.is_paid c' = true))
      (Database.wage_calculations db) (Database.wage_calculations run.1.1).
Proof.
  pose proof (update_paid_Forall2 calculationId (WagesModule.update_now env) db)
    as Hrows.
  assert (Forall2 (λ c c', same_but_paid c c'
                     ∧ (WageCalculation.id c ≠ calculationId → c' = c)
                     ∧ (WageCalculation.is_paid c = true →
                        WageCalculation.is_paid c' = true))
            (Database.wage_calculations db)
            (Database.wage_calculations
               (Store.update_paid calculationId (WagesModule.update_now env) db)))
    as Hrows'.
  { eapply Forall2_impl; [exact Hrows|]. simpl. tauto. }
  destruct (markAsPaid_cases env db st calculationId)
    as [| | | i c db2 _ _ _ _ Hins |]; simpl.
  - repeat split; [done|apply Forall2_same_but_paid].
  - repeat split; [done|apply Forall2_same_but_paid].
  - repeat split; [done|exact Hrows'].
  - apply insert_payment_Some in Hins as (-> & _). simpl.
    repeat split; [by apply prefix_app_r|exact Hrows'].
  - repeat split; [done|exact Hrows'].
Qed.

Lemma list_find_unlisted (st : WagesModule.State) calculationId :
  ¬ listed st calculationId →
  list_find (λ c, WageCalculation.id c = calculationId)
    (WagesModule.calculations st) = None.
Proof.
  intros Hnot. apply list_find_None, Forall_forall. intros c Hc Hid.
  apply Hnot. unfold listed. apply list_elem_of_fmap. eauto.
Qed.

(** X7. When the component's list does not contain the calculation,
    a confirmed run whose update goes through sets is_paid on the stored
    calculation and reports success without inserting any payment. *)
Theorem markAsPaid_unlisted env db st calculationId :
  WagesModule.confirm env = true →
  WagesModule.update_fault env = false →
  ¬ listed st calculationId →
  let run := WagesModule.markAsPaid env db st calculationId in
  run.2 = Some WagesModule.msg_paid_ok
  ∧ Database.payments run.1.1 = Database.payments db
  ∧ ∀ c, c ∈ calculation_rows run.1.1 calculationId →
         WageCalculation.is_paid c = true.
Proof.
  intros Hc Hu Hnot. unfold WagesModule.markAsPaid.
  rewrite Hc, Hu, (list_find_unlisted _ _ Hnot). simpl.
  repeat split. intros c. apply update_paid_rows.
Qed.

Lemma update_paid_absent calculationId updated db :
  calculationId ∉ (WageCalculation.id <$> Database.wage_calculations db) →
  Store.update_paid calculationId updated db = db.
Proof.
  intros Habsent. destruct db as [es att cs ps]. unfold Store.update_paid.
  simpl in *. f_equal. rewrite <-(list_fmap_id cs) at 2.
  apply list_fmap_ext. intros i c Hc. rewrite bool_decide_eq_false_2; [done|].
  intros <-. apply Habsent, list_elem_of_fmap. exists c.
  split; [done|]. by eapply list_elem_of_lookup_2.
Qed.

(** X8. When the store has no calculation with the given id, although the
    component still lists one, a confirmed run changes nothing in the
    store: the update matches no row, the insert of the payment is refused
    by the reference to the calculation, and 'Error marking as paid' is
    shown. *)
Theorem markAsPaid_missing_calculation env db st calculationId :
  WagesModule.confirm env = true →
  WagesModule.update_fault env = false →
  listed st calculationId →
  calculationId ∉ (WageCalculation.id <$> Database.wage_calculations db) →
  WagesModule.markAsPaid env db st calculationId
  = (db, st, Some WagesModule.msg_paid_error).
Proof.
  intros Hc Hu Hl Habsent.
  destruct (list_find_listed _ _ Hl) as (i & c & Hfind).
  unfold WagesModule.markAsPaid.
  rewrite Hc, Hu, Hfind, (update_paid_absent _ _ _ Habsent). simpl.
  assert (Store.insert_payment (WagesModule.payment_row env calculationId c) db
          = None) as ->; [|by destruct (WagesModule.insert_fault env)].
  unfold Store.insert_payment. case_bool_decide; [done|].
  unfold Store.has_calculation. simpl.
  by rewrite bool_decide_eq_false_2.
Qed.

Lemma markAsPaid_unlisted_witness :
  let run := WagesModule.markAsPaid (Scenario.paid_env "p1" false false)
               Scenario.db1 Cases.wages_unlisted "c1" in
  run.2 = Some WagesModule.msg_paid_ok
  ∧ Database.payments run.1.1 = Database.payments Scenario.db1
  ∧ ∀ c, c ∈ calculation_rows run.1.1 "c1" → WageCalculation.is_paid c = true.
Proof.
  apply (markAsPaid_unlisted (Scenario.paid_env "p1" false false)
           Scenario.db1 Cases.wages_unlisted "c1"); [reflexivity..|].
  unfold listed. compute_done.
Defined.

Lemma markAsPaid_missing_calculation_witness :
  WagesModule.markAsPaid (Scenario.paid_env "p1" false false)
    Scenario.db1 Cases.wages_stale "c9"
  = (Scenario.db1, Cases.wages_stale, Some WagesModule.msg_paid_error).
Proof.
  apply (markAsPaid_missing_calculation (Scenario.paid_env "p1" false false)
           Scenario.db1 Cases.wages_stale "c9"); [reflexivity..| |].
  - unfold listed. compute_done.
  - compute_done.
Defined.

Lemma markAsPaid_hides_button_witness :
  WagesModule.button_shown
    (WagesModule.markAsPaid (Scenario.paid_env "p1" false false)
       Scenario.db1 Scenario.wages1 "c1").1.2 "c1"
  = false.
Proof.
  apply (markAsPaid_hides_button (Scenario.paid_env "p1" false false)
           Scenario.db1 Scenario.wages1 "c1"
           (WagesModule.markAsPaid (Scenario.paid_env "p1" false false)
              Scenario.db1 Scenario.wages1 "c1").1.1).
  - vm_compute. reflexivity.
  - reflexivity.
Defined.

Lemma in_sync_markAsPaid_witness :
  let run := WagesModule.markAsPaid (Scenario.paid_env "p1" false false)
               Scenario.db1 Scenario.wages1 "c1" in
  in_sync run.1.1 run.1.2.
Proof.
  apply (in_sync_markAsPaid (Scenario.paid_env "p1" false false)
           Scenario.db1 Scenario.wages1 "c1").
  - compute_done.
  - exact scenario_in_sync.
Defined.

(** ** Invariants of the store across the handlers *)

Lemma payments_match_update_paid calculationId updated db :
  payments_match db →
  payments_match (Store.update_paid calculationId updated db).
Proof.
  intros Hm p c Hp. unfold Store.update_paid. simpl.
  intros (c0 & -> & Hc0)%list_elem_of_fmap Hid.
  case_bool_decide; by apply (Hm p c0).
Qed.

(** X9. Every payment carries the net amount and the employee of the
    calculation it references: a run of [markAsPaid] or of [calculateWages]
    keeps this, given that the component's list agrees with the store and
    that the store satisfies its constraints. *)
Theorem payments_match_kept penv cenv db st calculationId :
  payments_match db →
  in_sync db st →
  Constraints.holds db →
  payments_match (WagesModule.markAsPaid penv db st calculationId).1.1
  ∧ payments_match (WagesModule.calculateWages cenv db st).1.1.
Proof.
  intros Hm Hsync Hdb. split.
  - pose proof (payments_match_update_paid calculationId
                  (WagesModule.update_now penv) db Hm) as Hm1.
    destruct (markAsPaid_cases penv db st calculationId)
      as [| | | i c0 db2 _ _ Hfind _ Hins |]; simpl; try done.
    apply insert_payment_Some in Hins as (-> & _).
    apply list_find_id in Hfind as [Hc0 Hid0].
    intros p c. simpl. rewrite elem_of_app, list_elem_of_singleton.
    intros [Hp | ->] Hc Hid; [by apply Hm1|].
    revert Hc Hid. unfold Store.update_paid. simpl.
    intros (c1 & -> & Hc1)%list_elem_of_fmap Hid.
    assert (WageCalculation.id c0 = WageCalculation.id c1) as Hsame
      by (revert Hid; case_bool_decide; simpl; congruence).
    destruct (Hsync c0 c1 Hc0 Hc1 Hsame) as (He & Hn & _).
    case_bool_decide; simpl; by rewrite He, Hn.
  - destruct (decide ((WagesModule.calculateWages cenv db st).2
                      = Some WagesModule.msg_calc_ok)) as [Hok|Hnot];
      [|by rewrite calculateWages_not_ok].
    destruct (WagesModule.calculateWages cenv db st)
      as [[db' st'] alert] eqn:Hrun.
    simpl in *. subst alert.
    apply calculateWages_ok_inv in Hrun as (e & _ & -> & Hfresh).
    intros p c. simpl. rewrite elem_of_app, list_elem_of_singleton.
    intros Hp [Hc | ->] Hid; [by apply Hm|].
    exfalso. apply Hfresh. simpl in Hid. rewrite <-Hid.
    pose proof (Constraints.payments_fk_calculation db Hdb) as Hfk.
    rewrite Forall_forall in Hfk.
    by eapply bool_decide_eq_true_1, Hfk.
Qed.

Lemma payments_match_kept_witness :
  payments_match
    (WagesModule.markAsPaid (Scenario.paid_env "p1" false false)
       Scenario.db1 Scenario.wages1 "c1").1.1
  ∧ payments_match
      (WagesModule.calculateWages Cases.calc_env2 Scenario.db1
         Scenario.wages1).1.1.
Proof.
  apply (payments_match_kept (Scenario.paid_env "p1" false false)
           Cases.calc_env2 Scenario.db1 Scenario.wages1 "c1").
  - intros p c Hp. vm_compute in Hp. by apply not_elem_of_nil in Hp.
  - exact scenario_in_sync.
  - constructor; compute_done.
Defined.

(** X10. The three handlers keep the declared constraints of the store
    (primary keys, the unique key of attendance, references), whatever
    their outcome. *)
Theorem handlers_keep_constraints penv cenv aenv db wst ast calculationId :
  Constraints.holds db →
  Constraints.holds (WagesModule.markAsPaid penv db wst calculationId).1.1
  ∧ Constraints.holds (WagesModule.calculateWages cenv db wst).1.1
  ∧ Constraints.holds (AttendanceModule.handleSubmit aenv db ast).1.1.
Proof.
  intros Hdb. split; [|split].
  - by apply holds_markAsPaid.
  - by apply holds_calculateWages.
  - by apply holds_handleSubmit.
Qed.

Lemma handlers_keep_constraints_witness :
  Constraints.holds
    (WagesModule.markAsPaid (Scenario.paid_env "p1" false false)
       Scenario.db1 Scenario.wages1 "c1").1.1
  ∧ Constraints.holds
      (WagesModule.calculateWages Cases.calc_env2 Scenario.db1
         Scenario.wages1).1.1
  ∧ Constraints.holds
      (AttendanceModule.handleSubmit (Scenario.att_env "a6") Scenario.db1
         Scenario.form1).1.1.
Proof.
  apply (handlers_keep_constraints (Scenario.paid_env "p1" false false)
           Cases.calc_env2 (Scenario.att_env "a6")
           Scenario.db1 Scenario.wages1 Scenario.form1 "c1").
  constructor; compute_done.
Defined.

(** ** The lists the views fetch *)

(** X11. The list of calculations the wage view fetches has at most 20
    rows, all of them rows of the store, of the selected employee when one
    is selected, the most recently created first; when the store has at
    most 20 calculations, none that qualifies is left out. *)
Theorem fetchCalculations_listing db st :
  let cs := WagesModule.calculations (WagesModule.fetchCalculations false db st) in
  length cs ≤ 20
  ∧ greatest_first WageCalculation.created_at cs
  ∧ (∀ c, c ∈ cs →
          c ∈ Database.wage_calculations db
          ∧ (WagesModule.selectedEmployee st ≠ "" →
             WageCalculation.employee_id c = WagesModule.selectedEmployee st))
  ∧ (length (Database.wage_calculations db) ≤ 20 →
     ∀ c, c ∈ Database.wage_calculations db →
          WagesModule.selectedEmployee st = ""
          ∨ WageCalculation.employee_id c = WagesModule.selectedEmployee st →
          c ∈ cs).
Proof.
  unfold WagesModule.fetchCalculations. simpl.
  split; [rewrite length_take; lia|].
  split; [apply greatest_first_take, greatest_first_order_desc|].
  unfold falsy. case_bool_decide as Hsel; split.
  - intros c Hc%(subseteq_take 20)%order_desc_elem. by split.
  - intros Hlen c Hc _. by rewrite order_desc_take_all.
  - intros c [He Hc]%(subseteq_take 20)%order_desc_elem%list_elem_of_filter.
    by split.
  - intros Hlen c Hc [?|He]; [done|].
    rewrite order_desc_take_all.
    + by apply list_elem_of_filter.
    + etrans; [apply length_filter|done].
Qed.

(** X12. The attendance history the attendance view fetches has at most 30
    records, all of them records of the store for the given employee, the
    latest date first; when the store has at most 30 attendance records,
    none of the employee's is left out. *)
Theorem fetchAttendanceHistory_listing db employeeId st :
  let rs := AttendanceModule.attendanceData
              (AttendanceModule.fetchAttendanceHistory false db employeeId st) in
  length rs ≤ 30
  ∧ greatest_first Attendance.date rs
  ∧ (∀ r, r ∈ rs →
          r ∈ Database.attendance db ∧ Attendance.employee_id r = employeeId)
  ∧ (length (Database.attendance db) ≤ 30 →
     ∀ r, r ∈ Database.attendance db →
          Attendance.employee_id r = employeeId → r ∈ rs).
Proof.
  unfold AttendanceModule.fetchAttendanceHistory. simpl.
  split; [rewrite length_take; lia|].
  split; [apply greatest_first_take, greatest_first_order_desc|]. split.
  - intros r [He Hr]%(subseteq_take 30)%order_desc_elem%list_elem_of_filter.
    by split.
  - intros Hlen r Hr He. rewrite order_desc_take_all.
    + by apply list_elem_of_filter.
    + etrans; [apply length_filter|done].
Qed.

(** X13. The payments the report view fetches are exactly the payments of
    the store whose date lies in the range, of the selected employee unless
    'all' is selected, each once, the latest date first. *)
Theorem fetchPayments_listing db st :
  let ps := ReportModule.payment
              <$> ReportModule.payments (ReportModule.fetchPayments false db st) in
  ps ≡ₚ filter (λ p, (date_gte (Payment.payment_date p)
                        (ReportModule.startDate st) = true
                      ∧ date_lte (Payment.payment_date p)
                          (ReportModule.endDate st) = true)
                     ∧ (ReportModule.selectedEmployee st = "all"
                        ∨ Payment.employee_id p
                          = ReportModule.selectedEmployee st))
          (Database.payments db)
  ∧ greatest_first Payment.payment_date ps.
Proof.
  unfold ReportModule.fetchPayments. simpl.
  rewrite <-list_fmap_compose.
  rewrite (list_fmap_ext (ReportModule.payment ∘ ReportModule.report db) id
             (Store.order_desc Payment.payment_date _)) by done.
  rewrite list_fmap_id.
  split; [|apply greatest_first_order_desc].
  unfold Store.order_desc. rewrite merge_sort_Permutation.
  unfold ReportModule.payments_in_range.
  case_bool_decide as Hsel.
  - rewrite list_filter_filter.
    erewrite list_filter_iff; [reflexivity|]. intros p. simpl. tauto.
  - erewrite list_filter_iff; [reflexivity|]. intros p. simpl. tauto.
Qed.

(** ** The report: summaries and totals *)

Lemma ltb_true_le a b : String.ltb a b = true → String.le a b.
Proof.
  unfold String.ltb. intros H. apply leb_le. unfold String.leb.
  by destruct (String.compare a b).
Qed.

Lemma ltb_false_le a b : String.ltb a b = false → String.le b a.
Proof.
  unfold String.ltb. intros H. apply leb_le. unfold String.leb.
  rewrite (String.compare_antisym b a).
  by destruct (String.compare a b).
Qed.

(** What [summaryMap] holds as [lastDate] for an employee after the loop:
    the greatest of the dates of the employee's payments. *)
Lemma summaryMap_lastDate (paymentData : list Payment.t) (eid : string) s :
  ReportModule.summaryMap_of paymentData !! eid = Some s →
  ReportModule.lastDate s ∈ Payment.payment_date <$> of_employee eid paymentData
  ∧ ∀ d, d ∈ Payment.payment_date <$> of_employee eid paymentData →
         String.le d (ReportModule.lastDate s).
Proof.
  unfold ReportModule.summaryMap_of, of_employee. revert s.
  induction paymentData as [|p paymentData IH] using rev_ind; intros s.
  - simpl. by rewrite lookup_empty.
  - rewrite foldl_snoc, filter_app. unfold ReportModule.add_payment at 1.
    destruct (decide (Payment.employee_id p = eid)) as [<-|Hne].
    + rewrite lookup_insert_eq, filter_cons_True, filter_nil, fmap_app by done.
      intros [= <-]. simpl.
      pose proof (summaryMap_lookup paymentData (Payment.employee_id p)) as Hl.
      unfold ReportModule.summaryMap_of, of_employee in Hl.
      destruct (foldl ReportModule.add_payment ∅ paymentData
                  !! Payment.employee_id p) as [s0|]; simpl.
      * destruct (IH s0 eq_refl) as [Hin Hmax]. unfold str_gt.
        destruct (String.ltb _ _) eqn:Hlt.
        -- apply ltb_true_le in Hlt. split.
           ++ apply elem_of_app. right. apply list_elem_of_here.
           ++ intros d [Hd | ->%list_elem_of_singleton]%elem_of_app; [|done].
              etrans; [by apply Hmax|done].
        -- apply ltb_false_le in Hlt. split.
           ++ apply elem_of_app. by left.
           ++ intros d [Hd | ->%list_elem_of_singleton]%elem_of_app;
                [by apply Hmax|done].
      * rewrite Hl. simpl. unfold str_gt.
        assert (String.ltb (Payment.payment_date p) (Payment.payment_date p)
                = false) as ->.
        { unfold String.ltb.
          pose proof (String.compare_antisym (Payment.payment_date p)
                        (Payment.payment_date p)) as Hc.
          by destruct (String.compare _ _). }
        split; [apply list_elem_of_here|].
        by intros d ->%list_elem_of_singleton.
    + rewrite lookup_insert_ne, filter_cons_False, filter_nil, app_nil_r by done.
      apply IH.
Qed.

Lemma filtered_summaries (paymentData : list Payment.t) (emps : list Employee.t) :
  ReportModule.s_employee
    <$> filter (λ s, (ReportModule.paymentCount s > 0)%Z)
          (ReportModule.summary_of (ReportModule.summaryMap_of paymentData)
             <$> emps)
  = filter (λ e, (0 < Z.of_nat (length (of_employee (Employee.id e)
                                          paymentData)))%Z)
      emps.
Proof.
  induction emps as [|emp emps IH]; [done|].
  rewrite fmap_cons, !filter_cons.
  destruct (summary_of_spec paymentData emp) as (He & _ & Hc).
  rewrite Hc. repeat case_decide; try lia; [|done].
  by rewrite fmap_cons, He, IH.
Qed.

(** X14. The summaries list, in the order of the component's employees,
    exactly the employees that have at least one payment in the range:
    none of them is missing and none appears twice unless it is twice in
    the list of employees. *)
Theorem summaries_employees db st :
  ReportModule.s_employee
    <$> ReportModule.employeeSummaries
          (ReportModule.fetchEmployeeSummaries false db st)
  = filter (λ e, (0 < payment_count db (ReportModule.startDate st)
                        (ReportModule.endDate st) (Employee.id e))%Z)
      (ReportModule.employees st).
Proof.
  unfold ReportModule.fetchEmployeeSummaries, payment_count. simpl.
  apply filtered_summaries.
Qed.

(** X15. The last payment date of a summary is the greatest payment date of
    the employee's payments in the range (as the strings compare); it is
    left out only if that date is the empty string. *)
Theorem summaries_last_payment db st s :
  s ∈ ReportModule.employeeSummaries
        (ReportModule.fetchEmployeeSummaries false db st) →
  ∃ d, d ∈ payment_dates db st (Employee.id (ReportModule.s_employee s))
       ∧ (∀ d', d' ∈ payment_dates db st (Employee.id (ReportModule.s_employee s)) →
                String.le d' d)
       ∧ ReportModule.lastPaymentDate s = if falsy d then None else Some d.
Proof.
  unfold ReportModule.fetchEmployeeSummaries, payment_dates. simpl.
  intros [Hpos (emp & -> & _)%list_elem_of_fmap]%list_elem_of_filter.
  revert Hpos. unfold ReportModule.summary_of. simpl.
  destruct (ReportModule.summaryMap_of _ !! Employee.id emp) as [s0|] eqn:Hs0;
    [|lia].
  intros _. destruct (summaryMap_lastDate _ _ _ Hs0) as [Hin Hmax].
  by exists (ReportModule.lastDate s0).
Qed.

(** X16. Selecting the employee of a summary in the report lists the
    payments the summary is made of: the payments of that employee in the
    range, latest first, as many as the summary counts.  The total of the
    summary and the amount of the list are both double-precision sums of
    these payments, added from the left: the former in the order of the
    store, the latter in the order of the list. *)
Theorem getTotalAmount_of_employee
    (employees : list Employee.t) (rows : list Double.PaymentRow)
    (lo hi : string) (s : Double.EmployeeSummary) :
  s ∈ Double.fetchEmployeeSummaries employees rows lo hi →
  Employee.id (Double.s_employee s) ≠ "all" →
  let mine := Double.of_employee (Employee.id (Double.s_employee s))
                (Double.payments_in_range rows lo hi) in
  let payments := Double.fetchPayments rows
                    (Employee.id (Double.s_employee s)) lo hi in
  payments ≡ₚ mine
  ∧ greatest_first Double.payment_date payments
  ∧ Z.of_nat (length payments) = Double.paymentCount s
  ∧ Double.totalPayments s
    = Double.or_zero (Some (Double.sum (Double.amount <$> mine)))
  ∧ Double.getTotalAmount payments
    = Double.sum (Double.amount <$> payments).
Proof.
  unfold Double.fetchEmployeeSummaries.
  intros [_ (emp & -> & _)%list_elem_of_fmap]%list_elem_of_filter.
  destruct (double_summary_of_spec (Double.payments_in_range rows lo hi) emp)
    as (-> & -> & ->).
  intros Hall. cbv zeta.
  assert (Double.fetchPayments rows (Employee.id emp) lo hi
          ≡ₚ Double.of_employee (Employee.id emp)
               (Double.payments_in_range rows lo hi)) as Hperm.
  { unfold Double.fetchPayments, Store.order_desc. simpl.
    rewrite bool_decide_eq_true_2 by done. apply merge_sort_Permutation. }
  split_and!; [done| |by rewrite Hperm|done|apply double_getTotalAmount_sum].
  apply greatest_first_order_desc.
Qed.

Lemma scenario_double_alice_summary :
  Double.summary_of
    (Double.summaryMap_of
       (Double.payments_in_range Cases.payments_month
          "2025-11-01" "2025-11-30"))
    Scenario.alice
  ∈ Double.fetchEmployeeSummaries [Scenario.alice; Scenario.bob]
      Cases.payments_month "2025-11-01" "2025-11-30".
Proof. vm_compute. left. Qed.

Lemma getTotalAmount_of_employee_witness :
  let s := Double.summary_of
             (Double.summaryMap_of
                (Double.payments_in_range Cases.payments_month
                   "2025-11-01" "2025-11-30"))
             Scenario.alice in
  let mine := Double.of_employee "e1"
                (Double.payments_in_range Cases.payments_month
                   "2025-11-01" "2025-11-30") in
  let payments := Double.fetchPayments Cases.payments_month "e1"
                    "2025-11-01" "2025-11-30" in
  payments ≡ₚ mine
  ∧ greatest_first Double.payment_date payments
  ∧ Z.of_nat (length payments) = Double.paymentCount s
  ∧ Double.totalPayments s
    = Double.or_zero (Some (Double.sum (Double.amount <$> mine)))
  ∧ Double.getTotalAmount payments
    = Double.sum (Double.amount <$> payments).
Proof.
  intros s.
  apply (getTotalAmount_of_employee [Scenario.alice; Scenario.bob]
           Cases.payments_month "2025-11-01" "2025-11-30" s).
  - exact scenario_double_alice_summary.
  - discriminate.
Defined.

Lemma scenario_alice_summary :
  ReportModule.summary_of
    (ReportModule.summaryMap_of
       (ReportModule.payments_in_range Scenario.db_month
          "2025-11-01" "2025-11-30"))
    Scenario.alice
  ∈ ReportModule.employeeSummaries
      (ReportModule.fetchEmployeeSummaries false Scenario.db_month
         (ReportModule.fetchEmployees false Scenario.db_month Scenario.report0)).
Proof. vm_compute. left. Qed.

Lemma summaries_last_payment_witness :
  let st := ReportModule.fetchEmployees false Scenario.db_month
              Scenario.report0 in
  let s := ReportModule.summary_of
             (ReportModule.summaryMap_of
                (ReportModule.payments_in_range Scenario.db_month
                   "2025-11-01" "2025-11-30"))
             Scenario.alice in
  ∃ d, d ∈ payment_dates Scenario.db_month st "e1"
       ∧ (∀ d', d' ∈ payment_dates Scenario.db_month st "e1" → String.le d' d)
       ∧ ReportModule.lastPaymentDate s = if falsy d then None else Some d.
Proof.
  intros st s.
  apply (summaries_last_payment Scenario.db_month st s).
  exact scenario_alice_summary.
Defined.

(** X17. In a store that satisfies its constraints and whose payments carry
    the amounts of their calculations, every payment the report fetches
    comes with its employee and its calculation resolved, and its amount
    is the net amount of that calculation. *)
Theorem fetchPayments_joined db st r :
  Constraints.holds db →
  payments_match db →
  r ∈ ReportModule.payments (ReportModule.fetchPayments false db st) →
  ∃ e c,
    ReportModule.employee r = Some e
    ∧ e ∈ Database.employees db
    ∧ Employee.id e = Payment.employee_id (ReportModule.payment r)
    ∧ ReportModule.calculation r = Some c
    ∧ c ∈ Database.wage_calculations db
    ∧ WageCalculation.id c = Payment.wage_calculation_id (ReportModule.payment r)
    ∧ WageCalculation.employee_id c = Employee.id e
    ∧ Payment.amount (ReportModule.payment r) = WageCalculation.net_amount c.
Proof.
  intros Hdb Hm. unfold ReportModule.fetchPayments. simpl.
  intros (p & -> & Hp%order_desc_elem)%list_elem_of_fmap.
  assert (p ∈ Database.payments db) as Hin.
  { destruct (bool_decide _).
    - by apply list_elem_of_filter in Hp as [_ [_ ?]%list_elem_of_filter].
    - by apply list_elem_of_filter in Hp as [_ ?]. }
  clear Hp.
  pose proof (Constraints.payments_fk_employee db Hdb) as Hfe.
  pose proof (Constraints.payments_fk_calculation db Hdb) as Hfc.
  rewrite Forall_forall in Hfe, Hfc.
  specialize (Hfe p Hin). specialize (Hfc p Hin).
  apply bool_decide_eq_true_1 in Hfe, Hfc.
  apply list_elem_of_fmap in Hfe as (e0 & He0 & Hine0).
  apply list_elem_of_fmap in Hfc as (c0 & Hc0 & Hinc0).
  destruct (list_find_elem_of (λ e, Employee.id e = Payment.employee_id p)
              (Database.employees db) e0) as [[i e] Hfe]; [done..|].
  destruct (list_find_elem_of
              (λ c, WageCalculation.id c = Payment.wage_calculation_id p)
              (Database.wage_calculations db) c0) as [[j c] Hfc]; [done..|].
  unfold ReportModule.report. simpl. rewrite Hfe, Hfc. simpl.
  apply list_find_Some in Hfe as (Hie & Hide & _).
  apply list_find_Some in Hfc as (Hjc & Hidc & _).
  apply list_elem_of_lookup_2 in Hie, Hjc.
  destruct (Hm p c Hin Hjc) as [Ha Hemp]; [done|].
  exists e, c. repeat split; try done. congruence.
Qed.

Lemma scenario_db_month_match : payments_match Scenario.db_month.
Proof.
  intros p c Hp Hc Hid.
  assert (bool_decide
            (Forall (λ p, Forall (λ c,
               Payment.wage_calculation_id p = WageCalculation.id c →
               Payment.amount p = WageCalculation.net_amount c
               ∧ Payment.employee_id p = WageCalculation.employee_id c)
               (Database.wage_calculations Scenario.db_month))
               (Database.payments Scenario.db_month)) = true) as Hall
    by (vm_compute; reflexivity).
  apply bool_decide_eq_true_1 in Hall.
  rewrite Forall_forall in Hall. specialize (Hall p Hp).
  rewrite Forall_forall in Hall. by apply Hall.
Qed.

Lemma fetchPayments_joined_witness :
  let r := ReportModule.report Scenario.db_month
             (Scenario.pay "p3" "c3" "e1" 40 "2025-11-24") in
  ∃ e c,
    ReportModule.employee r = Some e
    ∧ e ∈ Database.employees Scenario.db_month
    ∧ Employee.id e = Payment.employee_id (ReportModule.payment r)
    ∧ ReportModule.calculation r = Some c
    ∧ c ∈ Database.wage_calculations Scenario.db_month
    ∧ WageCalculation.id c = Payment.wage_calculation_id (ReportModule.payment r)
    ∧ WageCalculation.employee_id c = Employee.id e
    ∧ Payment.amount (ReportModule.payment r) = WageCalculation.net_amount c.
Proof.
  intros r.
  apply (fetchPayments_joined Scenario.db_month Scenario.report0 r).
  - exact scenario_db_month_constraints.
  - exact scenario_db_month_match.
  - vm_compute. left.
Defined.

(** X18. A report whose end date is before its start date shows no payment
    and no summary, whatever the store holds. *)
Theorem report_inverted_range db st :
  str_gt (ReportModule.startDate st) (ReportModule.endDate st) = true →
  ReportModule.payments (ReportModule.fetchPayments false db st) = []
  ∧ ReportModule.employeeSummaries
      (ReportModule.fetchEmployeeSummaries false db st) = []
  ∧ ReportModule.getTotalAmount (ReportModule.fetchPayments false db st) = 0%Qc.
Proof.
  intros Hinv.
  assert (ReportModule.payments_in_range db (ReportModule.startDate st)
            (ReportModule.endDate st) = []) as Hnil.
  { unfold ReportModule.payments_in_range.
    induction (Database.payments db) as [|p ps IH]; [done|].
    rewrite filter_cons_False; [done|].
    intros [Hlo Hhi]. by eapply inverted_range_empty. }
  assert (ReportModule.payments (ReportModule.fetchPayments false db st) = [])
    as Hps.
  { unfold ReportModule.fetchPayments. simpl. rewrite Hnil.
    by destruct (bool_decide _). }
  split; [done|]. split.
  - apply (fmap_nil_inv ReportModule.s_employee).
    unfold ReportModule.fetchEmployeeSummaries. simpl.
    rewrite filtered_summaries, Hnil.
    induction (ReportModule.employees st) as [|e es IH]; [done|].
    rewrite filter_cons_False; [done|]. simpl. lia.
  - unfold ReportModule.getTotalAmount. by rewrite Hps.
Qed.

Lemma report_inverted_range_witness :
  ReportModule.payments
    (ReportModule.fetchPayments false Scenario.db_month Cases.report_inverted)
  = []
  ∧ ReportModule.employeeSummaries
      (ReportModule.fetchEmployeeSummaries false Scenario.db_month
         Cases.report_inverted) = []
  ∧ ReportModule.getTotalAmount
      (ReportModule.fetchPayments false Scenario.db_month
         Cases.report_inverted) = 0%Qc.
Proof.
  apply (report_inverted_range Scenario.db_month Cases.report_inverted).
  reflexivity.
Defined.

(** ** Marking attendance: first marking, failures, and what is left alone *)

(** X19. Marking attendance for an employee and a date that have no record
    yet, with overtime hours and an advance that their columns can hold and
    the write going through, appends exactly one record, with the generated
    id and the values of the form as the store holds them (the two numbers
    rounded to two decimals, which leaves numbers of at most two decimals
    as they are), and resets the form: the employee stays selected, the
    date becomes the clock's date. *)
Theorem handleSubmit_first_marking env db st :
  AttendanceModule.selectedEmployee st ≠ "" →
  AttendanceModule.selectedDate st ≠ "" →
  form_fits st →
  Store.attendance_by_key db (AttendanceModule.selectedEmployee st)
    (AttendanceModule.selectedDate st) = [] →
  AttendanceModule.write_fault env = false →
  Store.has_employee db (AttendanceModule.selectedEmployee st) = true →
  AttendanceModule.uuid env ∉ (Attendance.id <$> Database.attendance db) →
  let run := AttendanceModule.handleSubmit env db st in
  run.2 = Some AttendanceModule.msg_ok
  ∧ (∃ r, Database.attendance run.1.1 = Database.attendance db ++ [r]
          ∧ Attendance.id r = AttendanceModule.uuid env
          ∧ reflects st r
          ∧ (form_two_decimals st → carries st r))
  ∧ AttendanceModule.selectedEmployee run.1.2 = AttendanceModule.selectedEmployee st
  ∧ AttendanceModule.selectedDate run.1.2
    = split_T_0 (AttendanceModule.reset_now env)
  ∧ AttendanceModule.currentAttendance run.1.2 = blank_form.
Proof.
  intros He Hd Hfits Hkey Hw Hemp Hfresh. unfold AttendanceModule.handleSubmit.
  assert (falsy (AttendanceModule.selectedEmployee st)
          || falsy (AttendanceModule.selectedDate st) = false) as ->.
  { apply orb_false_iff. unfold falsy. by rewrite !bool_decide_eq_false_2. }
  rewrite Hw, Hkey.
  assert ((if AttendanceModule.select_fault env then None
           else Store.maybeSingle (@nil Attendance.t)) = None) as ->
    by (by destruct (AttendanceModule.select_fault env)).
  destruct (insert_new db _ _ (AttendanceModule.attendanceRecord st)
              (AttendanceModule.uuid env) (AttendanceModule.db_now env)
              Hkey Hemp Hfresh Hfits eq_refl eq_refl)
    as (db' & r & Hins & _ & -> & _ & _).
  rewrite Hins. cbn [fst snd].
  split; [done|]. split.
  - revert Hins. unfold Store.insert_attendance.
    rewrite bool_decide_eq_false_2 by done. rewrite Hfits.
    cbn [AttendanceInsert.employee_id AttendanceInsert.date
         AttendanceModule.attendanceRecord].
    rewrite Hemp, Hkey. simpl. intros [= <-]. simpl.
    eexists. split; [done|]. split; [done|].
    assert (∀ r, reflects st r →
                 reflects st r ∧ (form_two_decimals st → carries st r))
      as Hboth.
    { intros r Hr. split; [done|]. intros ?. by apply reflects_carries. }
    apply Hboth. by repeat split.
  - by destruct (AttendanceModule.history_fault env).
Qed.

Lemma handleSubmit_first_marking_witness :
  let run := AttendanceModule.handleSubmit (Scenario.att_env "a6")
               Scenario.db0 Scenario.form1 in
  run.2 = Some AttendanceModule.msg_ok
  ∧ (∃ r, Database.attendance run.1.1 = Database.attendance Scenario.db0 ++ [r]
          ∧ Attendance.id r = "a6"
          ∧ reflects Scenario.form1 r
          ∧ (form_two_decimals Scenario.form1 → carries Scenario.form1 r))
  ∧ AttendanceModule.selectedEmployee run.1.2 = "e1"
  ∧ AttendanceModule.selectedDate run.1.2 = "2025-11-24"
  ∧ AttendanceModule.currentAttendance run.1.2 = blank_form.
Proof.
  apply (handleSubmit_first_marking (Scenario.att_env "a6") Scenario.db0
           Scenario.form1); try reflexivity; try discriminate.
  compute_done.
Defined.

(** Numbers that their columns cannot hold are refused by the store: the
    run ends with 'Error marking attendance', the store and the form
    unchanged. *)
Lemma handleSubmit_overflow env db st :
  AttendanceModule.selectedEmployee st ≠ "" →
  AttendanceModule.selectedDate st ≠ "" →
  ¬ form_fits st →
  AttendanceModule.handleSubmit env db st
  = (db, st, Some AttendanceModule.msg_error).
Proof.
  intros He Hd Hfits. unfold AttendanceModule.handleSubmit.
  assert (falsy (AttendanceModule.selectedEmployee st)
          || falsy (AttendanceModule.selectedDate st) = false) as ->.
  { apply orb_false_iff. unfold falsy. by rewrite !bool_decide_eq_false_2. }
  unfold form_fits in Hfits. apply not_true_is_false in Hfits.
  destruct (AttendanceModule.write_fault env); [done|].
  destruct (if AttendanceModule.select_fault env then _ else _)
    as [row|] eqn:Hexisting.
  - assert (row ∈ Database.attendance db) as Hrow.
    { destruct (AttendanceModule.select_fault env); [done|].
      apply single_Some_elem in Hexisting.
      eapply by_key_elem. rewrite Hexisting. apply list_elem_of_here. }
    unfold Store.update_attendance.
    rewrite bool_decide_eq_true_2 by (apply list_elem_of_fmap; eauto).
    rewrite Hfits. by destruct (negb (Store.has_employee _ _)).
  - unfold Store.insert_attendance. rewrite Hfits.
    case_bool_decide; [done|]. by destruct (negb (Store.has_employee _ _)).
Qed.

(** A thousand overtime hours are refused. *)
Example scenario_overflow :
  AttendanceModule.handleSubmit (Scenario.att_env "a6") Scenario.db0
    Cases.form_overflow
  = (Scenario.db0, Cases.form_overflow, Some AttendanceModule.msg_error).
Proof.
  apply handleSubmit_overflow; [discriminate|discriminate|].
  unfold form_fits. vm_compute. discriminate.
Qed.

(** X20. When the lookup of the existing record fails while the employee
    and date do have a record, the handler takes the insert branch, the
    store refuses the duplicate key, and the run ends with 'Error marking
    attendance' and the store and the form unchanged. *)
Theorem handleSubmit_lookup_fault env db st :
  AttendanceModule.selectedEmployee st ≠ "" →
  AttendanceModule.selectedDate st ≠ "" →
  AttendanceModule.select_fault env = true →
  Store.attendance_by_key db (AttendanceModule.selectedEmployee st)
    (AttendanceModule.selectedDate st) ≠ [] →
  AttendanceModule.handleSubmit env db st
  = (db, st, Some AttendanceModule.msg_error).
Proof.
  intros He Hd Hs Hkey. unfold AttendanceModule.handleSubmit.
  assert (falsy (AttendanceModule.selectedEmployee st)
          || falsy (AttendanceModule.selectedDate st) = false) as ->.
  { apply orb_false_iff. unfold falsy. by rewrite !bool_decide_eq_false_2. }
  rewrite Hs. destruct (AttendanceModule.write_fault env); [done|].
  unfold Store.insert_attendance.
  case_bool_decide; [done|].
  destruct (negb (Store.has_employee _ _)); [done|].
  destruct (negb (Store.attendance_fits _)); [done|].
  cbn [AttendanceInsert.employee_id AttendanceInsert.date
       AttendanceModule.attendanceRecord].
  by destruct (Store.attendance_by_key _ _ _).
Qed.

Lemma handleSubmit_lookup_fault_witness :
  AttendanceModule.handleSubmit Cases.att_env_lookup_fault Scenario.db0
    Cases.form_existing
  = (Scenario.db0, Cases.form_existing, Some AttendanceModule.msg_error).
Proof.
  apply (handleSubmit_lookup_fault Cases.att_env_lookup_fault Scenario.db0
           Cases.form_existing); try reflexivity; discriminate.
Defined.

Lemma filter_fmap_fixed {A} (P : A → Prop) `{!∀ x, Decision (P x)}
    (f : A → A) (l : list A) :
  (∀ x, x ∈ l → P x → f x = x) →
  (∀ x, x ∈ l → ¬ P x → ¬ P (f x)) →
  filter P (f <$> l) = filter P l.
Proof.
  induction l as [|x l IH]; intros Hfix Hout; [done|].
  rewrite fmap_cons, !filter_cons, IH
    by (intros y Hy ?; first [apply Hfix|apply Hout];
        [by apply list_elem_of_further|done]).
  pose proof (Hfix x (list_elem_of_here x l)) as Hx.
  pose proof (Hout x (list_elem_of_here x l)) as Hx'.
  destruct (decide (P x)) as [HP|HP].
  - rewrite (Hx HP). by rewrite decide_True.
  - by rewrite decide_False by auto.
Qed.

(** X21. In a store with distinct attendance ids, a run of [handleSubmit]
    never touches the employees, the calculations, the payments or the
    attendance records of any other employee or date; and a run that does
    not report success leaves the store and the form as they were. *)
Theorem handleSubmit_frame env db st :
  NoDup (Attendance.id <$> Database.attendance db) →
  let run := AttendanceModule.handleSubmit env db st in
  Database.employees run.1.1 = Database.employees db
  ∧ Database.wage_calculations run.1.1 = Database.wage_calculations db
  ∧ Database.payments run.1.1 = Database.payments db
  ∧ other_keys (AttendanceModule.selectedEmployee st)
      (AttendanceModule.selectedDate st) (Database.attendance run.1.1)
    = other_keys (AttendanceModule.selectedEmployee st)
        (AttendanceModule.selectedDate st) (Database.attendance db)
  ∧ (run.2 ≠ Some AttendanceModule.msg_ok → run.1.1 = db ∧ run.1.2 = st).
Proof.
  intros Hpk. unfold AttendanceModule.handleSubmit.
  destruct (falsy _ || falsy _); [done|].
  destruct (AttendanceModule.write_fault env); [done|].
  destruct (if AttendanceModule.select_fault env then _ else _)
    as [row|] eqn:Hexisting.
  - assert (Store.attendance_by_key db (AttendanceModule.selectedEmployee st)
              (AttendanceModule.selectedDate st) = [row]) as Hkey.
    { destruct (AttendanceModule.select_fault env); [done|].
      by apply single_Some_elem. }
    assert (row ∈ Database.attendance db
            ∧ Attendance.employee_id row = AttendanceModule.selectedEmployee st
            ∧ Attendance.date row = AttendanceModule.selectedDate st)
      as (Hrow & Hre & Hrd).
    { apply by_key_elem. rewrite Hkey. apply list_elem_of_here. }
    unfold Store.update_attendance.
    rewrite bool_decide_eq_true_2 by (apply list_elem_of_fmap; eauto).
    destruct (negb (Store.has_employee _ _)); [done|].
    destruct (negb (Store.attendance_fits _)); [done|].
    destruct (forallb _ _); [|done].
    cbn [fst snd Database.employees Database.wage_calculations
         Database.payments Database.attendance].
    split_and!; [done|done|done| |done].
    unfold other_keys. apply filter_fmap_fixed.
    + intros x Hx HP. rewrite bool_decide_eq_false_2; [done|].
      intros Hid. apply HP.
      by rewrite (NoDup_fmap_elem_eq Attendance.id _ x row Hpk Hx Hrow Hid).
    + intros x Hx HP. case_bool_decide; [|done]. simpl. tauto.
  - unfold Store.insert_attendance.
    case_bool_decide; [done|].
    destruct (negb (Store.has_employee _ _)); [done|].
    destruct (negb (Store.attendance_fits _)); [done|].
    destruct (Store.attendance_by_key _ _ _); [|done].
    cbn [fst snd Database.employees Database.wage_calculations
         Database.payments Database.attendance].
    split_and!; [done|done|done| |done].
    unfold other_keys. rewrite filter_app, filter_cons_False, filter_nil.
    + by rewrite app_nil_r.
    + simpl. tauto.
Qed.

Lemma handleSubmit_frame_witness :
  let run := AttendanceModule.handleSubmit (Scenario.att_env "a6")
               Scenario.db0 Cases.form_existing in
  Database.employees run.1.1 = Database.employees Scenario.db0
  ∧ Database.wage_calculations run.1.1 = Database.wage_calculations Scenario.db0
  ∧ Database.payments run.1.1 = Database.payments Scenario.db0
  ∧ other_keys "e1" "2025-11-17" (Database.attendance run.1.1)
    = other_keys "e1" "2025-11-17" (Database.attendance Scenario.db0)
  ∧ (run.2 ≠ Some AttendanceModule.msg_ok →
     run.1.1 = Scenario.db0 ∧ run.1.2 = Cases.form_existing).
Proof.
  apply (handleSubmit_frame (Scenario.att_env "a6") Scenario.db0
           Cases.form_existing).
  compute_done.
Defined.

(** ** The names shown beside the calculations *)

Lemma fetchEmployees_elem db l x :
  x ∈ WagesView.fetchEmployees false db l ↔
  x ∈ Database.employees db ∧ Employee.is_active x = true.
Proof.
  unfold WagesView.fetchEmployees, Store.order_asc.
  rewrite merge_sort_Permutation, list_elem_of_filter. tauto.
Qed.

(** X22. With the employees fetched by the wage view, which asks for the
    active ones only, the name shown for an employee of the store is the
    employee's name when the employee is active and the name is not empty,
    and 'Unknown' otherwise: the calculations of a deactivated employee are
    listed under 'Unknown'.  An id the store does not have gives 'Unknown'
    too. *)
Theorem getEmployeeName_fetched db l :
  NoDup (Employee.id <$> Database.employees db) →
  (∀ e, e ∈ Database.employees db →
        WagesView.getEmployeeName (WagesView.fetchEmployees false db l)
          (Employee.id e)
        = if Employee.is_active e && negb (falsy (Employee.name e))
          then Employee.name e else "Unknown")
  ∧ (∀ employeeId,
       employeeId ∉ (Employee.id <$> Database.employees db) →
       WagesView.getEmployeeName (WagesView.fetchEmployees false db l)
         employeeId = "Unknown").
Proof.
  intros Hpk. split.
  - intros e He. unfold WagesView.getEmployeeName.
    destruct (Employee.is_active e) eqn:Hactive.
    + destruct (list_find_elem_of (λ x, Employee.id x = Employee.id e)
                  (WagesView.fetchEmployees false db l) e)
        as [[i e'] Hfind]; [by apply fetchEmployees_elem|done|].
      rewrite Hfind.
      apply list_find_Some in Hfind as (Hi & Hid & _).
      apply list_elem_of_lookup_2, fetchEmployees_elem in Hi as [He' _].
      rewrite (NoDup_fmap_elem_eq Employee.id _ e' e Hpk He' He Hid).
      by destruct (falsy (Employee.name e)).
    + assert (list_find (λ x, Employee.id x = Employee.id e)
                (WagesView.fetchEmployees false db l) = None) as ->; [|done].
      apply list_find_None, Forall_forall.
      intros x [Hx Hax]%fetchEmployees_elem Hid.
      rewrite (NoDup_fmap_elem_eq Employee.id _ x e Hpk Hx He Hid) in Hax.
      congruence.
  - intros employeeId Habsent. unfold WagesView.getEmployeeName.
    assert (list_find (λ x, Employee.id x = employeeId)
              (WagesView.fetchEmployees false db l) = None) as ->; [|done].
    apply list_find_None, Forall_forall.
    intros x [Hx _]%fetchEmployees_elem Hid. apply Habsent.
    apply list_elem_of_fmap. eauto.
Qed.

Lemma getEmployeeName_fetched_witness :
  (∀ e, e ∈ Database.employees Cases.db_staff →
        WagesView.getEmployeeName
          (WagesView.fetchEmployees false Cases.db_staff []) (Employee.id e)
        = if Employee.is_active e && negb (falsy (Employee.name e))
          then Employee.name e else "Unknown")
  ∧ (∀ employeeId,
       employeeId ∉ (Employee.id <$> Database.employees Cases.db_staff) →
       WagesView.getEmployeeName
         (WagesView.fetchEmployees false Cases.db_staff []) employeeId
       = "Unknown").
Proof.
  apply (getEmployeeName_fetched Cases.db_staff []).
  compute_done.
Defined.

(** The staff of the example: the active employees by name, and the names
    shown for each id. *)
Example scenario_staff :
  (Employee.name <$> WagesView.fetchEmployees false Cases.db_staff [])
  = ["Alice"; "Bob"]
  ∧ (WagesView.getEmployeeName
       (WagesView.fetchEmployees false Cases.db_staff [])
     <$> ["e1"; "e2"; "e3"; "e4"])
    = ["Alice"; "Bob"; "Unknown"; "Unknown"].
Proof. vm_compute. split; reflexivity. Qed.
